(** * Summary extraction from agent output: the bundled parsers

    A shallow embedding of the three bundled output parsers

    - [internal/parsers/bundled/claude_parser.py]   (module [Claude])
    - [internal/parsers/bundled/codex_parser.py]    (module [Codex])
    - [internal/parsers/bundled/opencode_parser.py] (module [Opencode])

    together with the properties their specification states about them.

    The parsers are Python: values are dynamically typed, a method called on
    the wrong kind of value raises, [try]/[except] blocks catch some of those
    exceptions, and the summary validator mutates the dictionary it is given.
    The embedding keeps all of that: module [Py] has the values, the
    exceptions as an error monad and the built-in operations the parsers
    call; each parser module follows its source file function by function. *)

From Stdlib Require Import ZArith List String Ascii Bool Lia.
From Stdlib Require Import Floats.SpecFloat.
Import ListNotations.

Local Open Scope string_scope.
Local Open Scope list_scope.
Local Open Scope Z_scope.

(* ================================================================== *)
(** * Python values and built-ins *)
(* ================================================================== *)

Module Py.

#[local] Set Warnings "-register-all".

(** The exceptions the modelled operations raise. *)
Inductive exn : Set :=
| AttributeError   (* a method the receiver does not have *)
| TypeError        (* an operand of the wrong type *)
| KeyError         (* a missing dictionary key *)
| OverflowError    (* an int too large for a float *)
| JSONDecodeError  (* json.loads on malformed text *)
| RecursionError   (* json.loads on a text nested too deep *)
| ValueError.      (* json.loads on an int of too many digits *)

(** A computation either returns or raises. *)
Inductive res (A : Type) : Type :=
| Ok (a : A)
| Raise (e : exn).
Arguments Ok {A} a.
Arguments Raise {A} e.

Definition bind {A B : Type} (c : res A) (k : A -> res B) : res B :=
  match c with
  | Ok a => k a
  | Raise e => Raise e
  end.

Notation "x <- c ;; k" := (bind c (fun x => k))
  (at level 61, c at next level, right associativity).
Notation "' p <- c ;; k" := (bind c (fun x => match x with p => k end))
  (at level 61, p pattern, c at next level, right associativity).

(** Python floats are IEEE 754 binary64. *)
Definition pyfloat : Set := spec_float.
Definition float_add : pyfloat -> pyfloat -> pyfloat := SFadd 53 1024.
Definition float_is_zero (f : pyfloat) : bool :=
  match f with S754_zero _ => true | _ => false end.

(** [float(z)]: the nearest float, or OverflowError. *)
Definition float_of_int (z : Z) : res pyfloat :=
  match binary_normalize 53 1024 z 0 false with
  | S754_infinity _ => Raise OverflowError
  | f => Ok f
  end.

(** What [json.loads] produces: None, bool, int, float, str, list, dict.
    A str is a [string] whose characters are code points below 256.
    A dict keeps its insertion order and is an association list; lookup
    takes the first binding of a key. *)
Inductive value : Set :=
| VNone
| VBool (b : bool)
| VInt (z : Z)
| VFloat (f : pyfloat)
| VStr (s : string)
| VList (l : list value)
| VDict (d : list (string * value)).

Definition dict : Set := list (string * value).

(** [bool(v)], the test of [if v:] and [not v]. *)
Definition truthy (v : value) : bool :=
  match v with
  | VNone => false
  | VBool b => b
  | VInt z => negb (z =? 0)
  | VFloat f => negb (float_is_zero f)
  | VStr s => negb (s =? "")%string
  | VList l => match l with [] => false | _ => true end
  | VDict d => match d with [] => false | _ => true end
  end.

(** [v is None] *)
Definition is_none (v : value) : bool :=
  match v with VNone => true | _ => false end.

(** [isinstance(v, str)], [isinstance(v, dict)], [isinstance(v, list)] *)
Definition is_str (v : value) : bool :=
  match v with VStr _ => true | _ => false end.
Definition is_dict (v : value) : bool :=
  match v with VDict _ => true | _ => false end.
Definition is_list (v : value) : bool :=
  match v with VList _ => true | _ => false end.

(** [v == "literal"] *)
Definition eq_str (v : value) (s : string) : bool :=
  match v with VStr t => (t =? s)%string | _ => false end.

(** ** Dictionaries *)

Fixpoint dict_get (k : string) (d : dict) : option value :=
  match d with
  | [] => None
  | (k', v) :: d' => if (k' =? k)%string then Some v else dict_get k d'
  end.

Definition dict_has (k : string) (d : dict) : bool :=
  match dict_get k d with Some _ => true | None => false end.

(** [d[k] = v]: an existing key keeps its place, a new one goes last. *)
Fixpoint dict_set (k : string) (v : value) (d : dict) : dict :=
  match d with
  | [] => [(k, v)]
  | (k', v') :: d' =>
      if (k' =? k)%string then (k', v) :: d' else (k', v') :: dict_set k v d'
  end.

(** ** Strings *)

(** [str.isspace] on one character, for code points below 256. *)
Definition isspace (c : ascii) : bool :=
  let n := N_of_ascii c in
  (((9 <=? n) && (n <=? 13)) || ((28 <=? n) && (n <=? 32))
   || (n =? 133) || (n =? 160))%N.

Fixpoint lstrip (s : string) : string :=
  match s with
  | EmptyString => EmptyString
  | String c s' => if isspace c then lstrip s' else s
  end.

Fixpoint rstrip (s : string) : string :=
  match s with
  | EmptyString => EmptyString
  | String c s' =>
      match rstrip s' with
      | EmptyString => if isspace c then EmptyString else String c EmptyString
      | r => String c r
      end
  end.

(** [s.strip()] *)
Definition strip (s : string) : string := rstrip (lstrip s).

(** [sub in s] for two strs *)
Fixpoint str_contains (sub s : string) : bool :=
  if prefix sub s then true
  else match s with
       | EmptyString => false
       | String _ s' => str_contains sub s'
       end.

Fixpoint find_from (c : ascii) (s : string) (i : Z) : Z :=
  match s with
  | EmptyString => -1
  | String a s' => if (a =? c)%char then i else find_from c s' (i + 1)
  end.

Fixpoint rfind_from (c : ascii) (s : string) (i last : Z) : Z :=
  match s with
  | EmptyString => last
  | String a s' => rfind_from c s' (i + 1) (if (a =? c)%char then i else last)
  end.

(** [s.find(c)] and [s.rfind(c)] for a one-character [c]: an index or -1. *)
Definition find (c : ascii) (s : string) : Z := find_from c s 0.
Definition rfind (c : ascii) (s : string) : Z := rfind_from c s 0 (-1).

(** [s[lo:hi]] for [0 <= lo]. *)
Definition slice (s : string) (lo hi : Z) : string :=
  substring (Z.to_nat lo) (Z.to_nat (hi - lo)) s.

Definition startswith (c : ascii) (s : string) : bool :=
  match s with
  | String a _ => (a =? c)%char
  | EmptyString => false
  end.

Fixpoint endswith (c : ascii) (s : string) : bool :=
  match s with
  | EmptyString => false
  | String a EmptyString => (a =? c)%char
  | String _ s' => endswith c s'
  end.

(** [s.split(sep)] for a one-character separator: never the empty list. *)
Fixpoint split (sep : ascii) (s : string) : list string :=
  match s with
  | EmptyString => [EmptyString]
  | String c s' =>
      if (c =? sep)%char then EmptyString :: split sep s'
      else match split sep s' with
           | h :: t => String c h :: t
           | [] => [String c EmptyString]
           end
  end.

Definition nl : ascii := ascii_of_N 10.

(** ** Dynamically typed operations *)

(** [k in v] for a str [k]: key of a dict, element of a list, substring of
    a str; anything else is not iterable. *)
Definition contains (k : string) (v : value) : res bool :=
  match v with
  | VDict d => Ok (dict_has k d)
  | VList l => Ok (existsb (fun x => eq_str x k) l)
  | VStr s => Ok (str_contains k s)
  | _ => Raise TypeError
  end.

(** [v.get(k, default)]: only a dict has [get]. *)
Definition get (v : value) (k : string) (default : value) : res value :=
  match v with
  | VDict d => Ok (match dict_get k d with Some x => x | None => default end)
  | _ => Raise AttributeError
  end.

(** [v[k]] for a str [k]. *)
Definition getitem (v : value) (k : string) : res value :=
  match v with
  | VDict d => match dict_get k d with Some x => Ok x | None => Raise KeyError end
  | _ => Raise TypeError
  end.

(** [v[k] = x] for a str [k]: the object after the assignment. *)
Definition setitem (v : value) (k : string) (x : value) : res value :=
  match v with
  | VDict d => Ok (VDict (dict_set k x d))
  | _ => Raise TypeError
  end.

(** The str methods, on any receiver. *)
Definition str_strip (v : value) : res value :=
  match v with VStr s => Ok (VStr (strip s)) | _ => Raise AttributeError end.
Definition str_find (v : value) (c : ascii) : res Z :=
  match v with VStr s => Ok (find c s) | _ => Raise AttributeError end.
Definition str_rfind (v : value) (c : ascii) : res Z :=
  match v with VStr s => Ok (rfind c s) | _ => Raise AttributeError end.
Definition str_startswith (v : value) (c : ascii) : res bool :=
  match v with VStr s => Ok (startswith c s) | _ => Raise AttributeError end.
Definition str_endswith (v : value) (c : ascii) : res bool :=
  match v with VStr s => Ok (endswith c s) | _ => Raise AttributeError end.

(** [v[lo:hi]] with [0 <= lo]. *)
Definition getslice (v : value) (lo hi : Z) : res value :=
  match v with
  | VStr s => Ok (VStr (slice s lo hi))
  | VList l => Ok (VList (firstn (Z.to_nat (hi - lo)) (skipn (Z.to_nat lo) l)))
  | _ => Raise TypeError
  end.

(** ["\n".join(parts)]: every part must be a str. *)
Fixpoint join_nl (parts : list value) : res string :=
  match parts with
  | [] => Ok EmptyString
  | [VStr s] => Ok s
  | VStr s :: rest => r <- join_nl rest ;; Ok (s ++ String nl r)%string
  | _ :: _ => Raise TypeError
  end.

Definition int_like (v : value) : option Z :=
  match v with
  | VBool b => Some (Z.b2z b)
  | VInt z => Some z
  | _ => None
  end.

(** [a += b]: the new value of [a]. *)
Definition iadd (a b : value) : res value :=
  match a, b with
  | VStr s, VStr t => Ok (VStr (s ++ t))
  | VList l, VList m => Ok (VList (l ++ m))
  | VList l, VStr t =>
      Ok (VList (l ++ map (fun c => VStr (String c EmptyString))
                          (list_ascii_of_string t)))
  | VList l, VDict d => Ok (VList (l ++ map (fun kv => VStr (fst kv)) d))
  | VFloat x, VFloat y => Ok (VFloat (float_add x y))
  | VFloat x, _ =>
      match int_like b with
      | Some z => y <- float_of_int z ;; Ok (VFloat (float_add x y))
      | None => Raise TypeError
      end
  | _, VFloat y =>
      match int_like a with
      | Some z => x <- float_of_int z ;; Ok (VFloat (float_add x y))
      | None => Raise TypeError
      end
  | _, _ =>
      match int_like a, int_like b with
      | Some x, Some y => Ok (VInt (x + y))
      | _, _ => Raise TypeError
      end
  end.

(** [json.loads(v)] given the decoder of texts: a str is decoded, which
    may raise; anything else is refused with TypeError. *)
Definition json_loads_value (json_loads : string -> res value)
    (v : value) : res value :=
  match v with
  | VStr s => json_loads s
  | _ => Raise TypeError
  end.

(** [a and b] on tests that may raise: [b] is not run when [a] is false. *)
Definition and_then (a b : res bool) : res bool :=
  x <- a ;; if x then b else Ok false.

(** [a or b], likewise. *)
Definition or_else (a b : res bool) : res bool :=
  x <- a ;; if x then Ok true else b.

(** [not v.get(k)] *)
Definition not_get (v : value) (k : string) : res bool :=
  x <- get v k VNone ;; Ok (negb (truthy x)).

(** The brace-matching loop, which the three files carry character for
    character:
<<
        brace_count = 0
        for i in range(start, len(text)):
            if text[i] == '{':
                brace_count += 1
            elif text[i] == '}':
                brace_count -= 1
                if brace_count == 0:
                    return text[start:i+1]
>>
    [rest] is [text[i:]]; the result is the returned slice, or [None] when
    the loop runs to its end. *)
Fixpoint brace_loop (text : string) (start : Z) (rest : string)
    (i brace_count : Z) : option string :=
  match rest with
  | EmptyString => None
  | String c rest' =>
      if (c =? "{")%char then
        brace_loop text start rest' (i + 1) (brace_count + 1)
      else if (c =? "}")%char then
        let brace_count := brace_count - 1 in
        if brace_count =? 0 then Some (slice text start (i + 1))
        else brace_loop text start rest' (i + 1) brace_count
      else brace_loop text start rest' (i + 1) brace_count
  end.

(** The loop on a value: [len(text)] and [text[i]] with a str index need
    a str (the [find] before the loop has raised on anything else). *)
Definition for_braces (text : value) (start : Z) : res (option value) :=
  match text with
  | VStr s =>
      let rest := slice s start (Z.of_nat (String.length s)) in
      Ok (option_map VStr (brace_loop s start rest start 0))
  | _ => Raise TypeError
  end.

(** The span from the first [{] to the last [}], which both fence rules
    take:
<<
        start = text.find("{")
        end = text.rfind("}")
        if start >= 0 and end > start:
            return text[start:end+1]
>>
    [None] when the test fails and control goes on to the next rule. *)
Definition fence_span (text : value) : res (option value) :=
  start <- str_find text "{" ;;
  end_ <- str_rfind text "}" ;;
  if (start >=? 0) && (end_ >? start)
  then r <- getslice text start (end_ + 1) ;; Ok (Some r)
  else Ok None.

(** The parts a list content contributes:
<<
        for item in content:
            if isinstance(item, str) and item:
                parts.append(item)
            elif isinstance(item, dict):
                if "text" in item:
                    text = item["text"]
                    if text:
                        parts.append(text)
>> *)
Fixpoint content_parts (content : list value) : list value :=
  match content with
  | [] => []
  | item :: rest =>
      if is_str item && truthy item then item :: content_parts rest
      else
        match item with
        | VDict d =>
            match dict_get "text" d with
            | Some text =>
                if truthy text then text :: content_parts rest
                else content_parts rest
            | None => content_parts rest
            end
        | _ => content_parts rest
        end
  end.

(** ** How a script ends *)

(** The two streams a script writes to. *)
Inductive stream : Set := Stdout | Stderr.

(** What [main] leaves behind: the value handed to [json.dump], the stream
    it was dumped to, and the status given to [sys.exit].  The text
    [json.dump] makes of the value is not modelled. *)
Record process_end : Set := mk_end {
  dumped : value;
  dumped_to : stream;
  exit_status : Z
}.

(** [json.dump({"error": "no summary found"}, sys.stderr); sys.exit(1)] *)
Definition no_summary_found : process_end :=
  mk_end (VDict [("error", VStr "no summary found")]) Stderr 1.

End Py.

(* ================================================================== *)
(** * A reference [json.loads] *)
(* ================================================================== *)

(** The parsers call the standard library's [json.loads]; their embeddings
    take the decoder as a parameter [json_loads : string -> res value]:
    what it returns, or what it raises, which is [json.JSONDecodeError]
    on a malformed text and may be something else, such as RecursionError
    or ValueError, that an [except json.JSONDecodeError] does not catch.
    [Json.loads] below is a decoder after the grammar the library's
    default decoder accepts, used to run the parsers on concrete inputs.
    It keeps to the strs of this model: an escape for a code point above
    255 is outside it and is refused. *)

Module Json.
Import Py.

Definition dquote : ascii := ascii_of_N 34.
Definition backslash : ascii := ascii_of_N 92.

(** Writes a JSON text with ['] for the double quote: [js "{'a': 1}"]. *)
Fixpoint js (s : string) : string :=
  match s with
  | EmptyString => EmptyString
  | String c s' => String (if (c =? "'")%char then dquote else c) (js s')
  end.

(** A text of several lines. *)
Definition unlines (ls : list string) : string :=
  String.concat (String nl EmptyString) ls.

Definition is_ws (c : ascii) : bool :=
  ((c =? " ") || (c =? ascii_of_N 9) || (c =? ascii_of_N 10)
   || (c =? ascii_of_N 13))%char.

Fixpoint skip_ws (s : string) : string :=
  match s with
  | String c s' => if is_ws c then skip_ws s' else s
  | EmptyString => s
  end.

Definition digit (c : ascii) : option Z :=
  let n := Z.of_N (N_of_ascii c) in
  if (48 <=? n) && (n <=? 57) then Some (n - 48) else None.

Definition hex_digit (c : ascii) : option Z :=
  let n := Z.of_N (N_of_ascii c) in
  if (48 <=? n) && (n <=? 57) then Some (n - 48)
  else if (65 <=? n) && (n <=? 70) then Some (n - 55)
  else if (97 <=? n) && (n <=? 102) then Some (n - 87)
  else None.

(** The digits at the front of [s]: their value, how many, the rest. *)
Fixpoint digits (s : string) (acc : Z) (n : Z) : Z * Z * string :=
  match s with
  | String c s' =>
      match digit c with
      | Some d => digits s' (10 * acc + d) (n + 1)
      | None => (acc, n, s)
      end
  | EmptyString => (acc, n, s)
  end.

(** The float nearest to [m * 10^e], ties to even. *)
Definition float_of_decimal (neg : bool) (m e : Z) : pyfloat :=
  if m =? 0 then S754_zero neg
  else if 0 <=? e then
    binary_normalize 53 1024 ((if neg then - m else m) * 10 ^ e) 0 false
  else
    let d := 10 ^ (- e) in
    let k := Z.max 0 (64 + Z.log2 d - Z.log2 m) in
    let q := (m * 2 ^ k) / d in
    let q := if (m * 2 ^ k) mod d =? 0 then q else Z.lor q 1 in
    binary_normalize 53 1024 (if neg then - q else q) (- k) false.

(** The most digits [int] converts from a str; more raise ValueError. *)
Definition max_str_digits : Z := 4300.

(** How deep arrays and objects may nest before the decoder gives up with
    RecursionError.  CPython's bound depends on its version and on the
    frames already on the stack; this is the default of
    [sys.getrecursionlimit()]. *)
Definition recursion_limit : nat := 1000.

(** A number after its sign: an integer part (a single 0, or digits not
    starting with 0), then optionally a fraction (a dot and digits) and an
    exponent (e or E, a sign, digits).  An int when it has neither. *)
Definition parse_number (neg : bool) (s : string) : res (value * string) :=
  let '(ip, n, s1) := digits s 0 0 in
  let int_end : option (Z * Z * string) :=
    (* a leading 0 ends the integer part *)
    match s with
    | String "0" s' => Some (0, 1, s')
    | _ => if 0 <? n then Some (ip, n, s1) else None
    end in
  match int_end with
  | None => Raise JSONDecodeError
  | Some (ip, n, s1) =>
      let '(m, fe, s2, has_frac) :=
        match s1 with
        | String "." s' =>
            let '(fp, fn, s'') := digits s' ip 0 in
            if 0 <? fn then (fp, - fn, s'', true) else (ip, 0, s1, false)
        | _ => (ip, 0, s1, false)
        end in
      let '(ex, s3, has_exp) :=
        match s2 with
        | String c s' =>
            if ((c =? "e") || (c =? "E"))%char then
              let '(sg, s'') :=
                match s' with
                | String "-" t => (-1, t)
                | String "+" t => (1, t)
                | _ => (1, s')
                end in
              let '(ev, en, t) := digits s'' 0 0 in
              if 0 <? en then (sg * ev, t, true) else (0, s2, false)
            else (0, s2, false)
        | EmptyString => (0, s2, false)
        end in
      if has_frac || has_exp
      then Ok (VFloat (float_of_decimal neg m (fe + ex)), s3)
      else if max_str_digits <? n then Raise ValueError
      else Ok (VInt (if neg then - ip else ip), s3)
  end.

(** The body of a string literal after its opening quote: the decoded
    text and what follows the closing quote.  Control characters are
    refused, as are escapes for code points this model of str lacks. *)
Fixpoint parse_string (s : string) : option (string * string) :=
  match s with
  | EmptyString => None
  | String c s' =>
      if (c =? dquote)%char then Some (EmptyString, s')
      else if (c =? backslash)%char then
        match s' with
        | String e s'' =>
            let simple (d : ascii) :=
              match parse_string s'' with
              | Some (r, t) => Some (String d r, t)
              | None => None
              end in
            if (e =? dquote)%char then simple dquote
            else if (e =? backslash)%char then simple backslash
            else if (e =? "/")%char then simple "/"%char
            else if (e =? "b")%char then simple (ascii_of_N 8)
            else if (e =? "f")%char then simple (ascii_of_N 12)
            else if (e =? "n")%char then simple (ascii_of_N 10)
            else if (e =? "r")%char then simple (ascii_of_N 13)
            else if (e =? "t")%char then simple (ascii_of_N 9)
            else if (e =? "u")%char then
              match s'' with
              | String h1 (String h2 (String h3 (String h4 t))) =>
                  match hex_digit h1, hex_digit h2, hex_digit h3, hex_digit h4 with
                  | Some a, Some b, Some c', Some d =>
                      let cp := ((a * 16 + b) * 16 + c') * 16 + d in
                      if cp <? 256 then
                        match parse_string t with
                        | Some (r, t') =>
                            Some (String (ascii_of_N (Z.to_N cp)) r, t')
                        | None => None
                        end
                      else None
                  | _, _, _, _ => None
                  end
              | _ => None
              end
            else None
        | EmptyString => None
        end
      else if (N_of_ascii c <? 32)%N then None
      else
        match parse_string s' with
        | Some (r, t) => Some (String c r, t)
        | None => None
        end
  end.

Definition strip_prefix (p s : string) : option string :=
  if prefix p s
  then Some (substring (String.length p) (String.length s - String.length p) s)
  else None.

(** One JSON value at the front of [s] (no leading blanks) and the rest;
    [depth] is how many more arrays and objects may open around it. *)
Fixpoint parse_value (fuel depth : nat) (s : string)
  : res (value * string) :=
  match fuel with
  | O => Raise JSONDecodeError
  | S fuel =>
      match s with
      | EmptyString => Raise JSONDecodeError
      | String c s1 =>
          if (c =? dquote)%char then
            match parse_string s1 with
            | Some (r, t) => Ok (VStr r, t)
            | None => Raise JSONDecodeError
            end
          else if (c =? "{")%char then
            match depth with
            | O => Raise RecursionError
            | S depth =>
                match skip_ws s1 with
                | String "}" t => Ok (VDict [], t)
                | s2 => parse_members fuel depth [] s2
                end
            end
          else if (c =? "[")%char then
            match depth with
            | O => Raise RecursionError
            | S depth =>
                match skip_ws s1 with
                | String "]" t => Ok (VList [], t)
                | s2 => parse_elements fuel depth [] s2
                end
            end
          else if (c =? "-")%char then
            match strip_prefix "Infinity" s1 with
            | Some t => Ok (VFloat (S754_infinity true), t)
            | None => parse_number true s1
            end
          else
            match strip_prefix "null" s with
            | Some t => Ok (VNone, t)
            | None =>
            match strip_prefix "true" s with
            | Some t => Ok (VBool true, t)
            | None =>
            match strip_prefix "false" s with
            | Some t => Ok (VBool false, t)
            | None =>
            match strip_prefix "NaN" s with
            | Some t => Ok (VFloat S754_nan, t)
            | None =>
            match strip_prefix "Infinity" s with
            | Some t => Ok (VFloat (S754_infinity false), t)
            | None => parse_number false s
            end end end end end
      end
  end

(** The members of an object from a key on, [acc] the pairs read so far:
    a repeated key keeps its first place and takes the later value. *)
with parse_members (fuel depth : nat) (acc : dict) (s : string)
  : res (value * string) :=
  match fuel with
  | O => Raise JSONDecodeError
  | S fuel =>
      match s with
      | String c s1 =>
          if (c =? dquote)%char then
            match parse_string s1 with
            | Some (k, s2) =>
                match skip_ws s2 with
                | String ":" s3 =>
                    '(v, s4) <- parse_value fuel depth (skip_ws s3) ;;
                    match skip_ws s4 with
                    | String "," s5 =>
                        parse_members fuel depth (dict_set k v acc)
                          (skip_ws s5)
                    | String "}" s5 => Ok (VDict (dict_set k v acc), s5)
                    | _ => Raise JSONDecodeError
                    end
                | _ => Raise JSONDecodeError
                end
            | None => Raise JSONDecodeError
            end
          else Raise JSONDecodeError
      | EmptyString => Raise JSONDecodeError
      end
  end

(** The elements of an array from an element on. *)
with parse_elements (fuel depth : nat) (acc : list value) (s : string)
  : res (value * string) :=
  match fuel with
  | O => Raise JSONDecodeError
  | S fuel =>
      '(v, s1) <- parse_value fuel depth s ;;
      match skip_ws s1 with
      | String "," s2 => parse_elements fuel depth (acc ++ [v]) (skip_ws s2)
      | String "]" s2 => Ok (VList (acc ++ [v]), s2)
      | _ => Raise JSONDecodeError
      end
  end.

(** [json.loads(s)]: one value, blanks around it, nothing else.  The
    fuel allows two calls for each character of the text. *)
Definition loads (s : string) : res value :=
  '(v, t) <- parse_value (2 * String.length s + 2)%nat recursion_limit
               (skip_ws s) ;;
  match skip_ws t with
  | EmptyString => Ok v
  | _ => Raise JSONDecodeError
  end.

End Json.

(* ================================================================== *)
(** * claude_parser.py *)
(* ================================================================== *)

Module Claude.
Import Py.

Section WithDecoder.

Variable json_loads : string -> res value.

(** The two escapes the unescape step looks for: a backslash followed by
    [n], and a backslash followed by a double quote. *)
Definition escaped_newline : string := "\n".
Definition escaped_quote : string :=
  String Json.backslash (String Json.dquote EmptyString).

(** [extract_json_block(text)]: a str, or [VNone]. *)
Definition extract_json_block (text : value) : res value :=
  text <- str_strip text ;;
  (* Try to unescape if the string contains escaped characters *)
  esc <- or_else (contains escaped_newline text) (contains escaped_quote text) ;;
  let text :=
    if esc then
      match json_loads_value json_loads text with
      | Ok decoded => decoded
      | Raise _ => text
      end
    else text in
  (* Check for markdown code block *)
  fenced <- contains "```json" text ;;
  span <- (if fenced then fence_span text else Ok None) ;;
  match span with
  | Some r => Ok r
  | None =>
  (* Check for code block without language tag *)
  fenced <- contains "```" text ;;
  span <- (if fenced then fence_span text else Ok None) ;;
  match span with
  | Some r => Ok r
  | None =>
  (* Check if the whole string is JSON *)
  whole <- and_then (str_startswith text "{") (str_endswith text "}") ;;
  if whole then Ok text
  else
    (* Look for first JSON object in the string *)
    start <- str_find text "{" ;;
    found <- (if start >=? 0 then for_braces text start else Ok None) ;;
    match found with
    | Some r => Ok r
    | None => Ok VNone
    end
  end end.

(** [parse_summary_from_line(line)].  The function assigns to
    [line["task_id"]], so the result has two parts: the object [line] as
    the call leaves it, and the returned reference, which is that object
    or [VNone]. *)
Definition parse_summary_from_line (line : value) : res (value * value) :=
  has_task_id <- contains "task_id" line ;;
  has_status <- contains "status" line ;;
  has_summary <- contains "summary" line ;;
  has_files <- contains "files" line ;;
  has_blockers <- contains "blockers" line ;;
  if negb (has_task_id || has_status || has_summary || has_files || has_blockers)
  then Ok (line, VNone)
  else
    (* Normalize task_id (null -> empty string) *)
    task_id <- get line "task_id" VNone ;;
    line <- (if is_none task_id then setitem line "task_id" (VStr "")
             else Ok line) ;;
    (* Check if summary has actual content *)
    no_text <- and_then (not_get line "task_id")
                 (and_then (not_get line "status") (not_get line "summary")) ;;
    no_lists <- (if no_text
                 then and_then (not_get line "files") (not_get line "blockers")
                 else Ok false) ;;
    if no_lists then Ok (line, VNone) else Ok (line, line).

(** [extract_text_from_message(msg)] *)
Definition extract_text_from_message (msg : value) : res value :=
  has_message <- contains "message" msg ;;
  content <- (if has_message
              then message <- getitem msg "message" ;;
                   get message "content" (VStr "")
              else get msg "content" (VStr "")) ;;
  (* Handle different content formats *)
  match content with
  | VStr _ => Ok content
  | VDict _ =>
      has_text <- contains "text" content ;;
      if has_text then getitem content "text" else Ok (VStr "")
  | VList items =>
      joined <- join_nl (content_parts items) ;; Ok (VStr joined)
  | _ => Ok (VStr "")
  end.

(** The two accumulators of [parse_claude_stream_json]. *)
Record acc : Set := mk_acc {
  last_assistant_content : value;
  last_message_content : value
}.

(** How one pass of the loop body ends: the function returns, or the loop
    goes on with the accumulators. *)
Inductive flow : Set :=
| Return (v : value)
| Next (a : acc).

(** The summary an assistant_message content carries:
<<
                json_str = extract_json_block(content)
                if json_str:
                    try:
                        obj = json.loads(json_str)
                        if "task_id" in obj and "status" in obj:
                            return obj
                    except:
                        pass
>>
    [Some obj] when the function returns [obj] here. *)
Definition immediate_summary (content : value) : res (option value) :=
  json_str <- extract_json_block content ;;
  if truthy json_str then
    match
      obj <- json_loads_value json_loads json_str ;;
      both <- and_then (contains "task_id" obj) (contains "status" obj) ;;
      Ok (if both then Some obj else None)
    with
    | Ok r => Ok r
    | Raise _ => Ok None
    end
  else Ok None.

(** The body of [for line in output.strip().split('\n')]. *)
Definition loop_body (a : acc) (line : string) : res flow :=
  if negb (truthy (VStr (strip line))) then Ok (Next a)
  else
    match json_loads line with
    | Raise JSONDecodeError => Ok (Next a)   (* except json.JSONDecodeError *)
    | Raise e => Raise e                     (* anything else goes up *)
    | Ok data =>
        (* Check for assistant_message events with plain text content *)
        type <- get data "type" VNone ;;
        step <-
          (if eq_str type "assistant_message" then
             content <- get data "content" (VStr "") ;;
             if truthy content then
               (* Try to unescape if it's a JSON-encoded string *)
               let content :=
                 match json_loads_value json_loads content with
                 | Ok unescaped => unescaped
                 | Raise _ => content
                 end in
               (* Extract JSON from content *)
               found <- immediate_summary content ;;
               match found with
               | Some obj => Ok (Return obj)
               | None =>
                   (* Accumulate non-JSON content *)
                   if negb (truthy (last_assistant_content a))
                   then Ok (Next (mk_acc content (last_message_content a)))
                   else Ok (Next a)
               end
             else Ok (Next a)
           else Ok (Next a)) ;;
        match step with
        | Return obj => Ok (Return obj)
        | Next a =>
            (* Look for full message events *)
            has_message <- contains "message" data ;;
            a <- (if has_message then
                    text <- extract_text_from_message data ;;
                    if truthy text
                    then Ok (mk_acc (last_assistant_content a) text)
                    else Ok a
                  else Ok a) ;;
            (* Check for stream deltas *)
            type <- get data "type" VNone ;;
            if eq_str type "content_block_delta" then
              delta <- get data "delta" (VDict []) ;;
              has_text <- (if is_dict delta then contains "text" delta
                           else Ok false) ;;
              if has_text then
                piece <- getitem delta "text" ;;
                sum <- iadd (last_message_content a) piece ;;
                Ok (Next (mk_acc (last_assistant_content a) sum))
              else Ok (Next a)
            else Ok (Next a)
        end
    end.

Fixpoint for_lines (a : acc) (lines : list string) : res flow :=
  match lines with
  | [] => Ok (Next a)
  | line :: rest =>
      step <- loop_body a line ;;
      match step with
      | Return obj => Ok (Return obj)
      | Next a' => for_lines a' rest
      end
  end.

(** The fallback applied to each accumulator after the loop:
<<
    if content:
        json_str = extract_json_block(content)
        if json_str:
            try:
                summary = json.loads(json_str)
                if parse_summary_from_line(summary):
                    return summary
            except:
                pass
>>
    [Some summary] when the function returns here; [summary] is the decoded
    object as the validator left it. *)
Definition fallback_summary (content : value) : res (option value) :=
  if truthy content then
    json_str <- extract_json_block content ;;
    if truthy json_str then
      match
        summary <- json_loads_value json_loads json_str ;;
        parse_summary_from_line summary
      with
      | Ok (summary, accepted) =>
          Ok (if truthy accepted then Some summary else None)
      | Raise _ => Ok None
      end
    else Ok None
  else Ok None.

(** [parse_claude_stream_json(output)]: the summary, or [VNone]. *)
Definition parse_claude_stream_json (output : string) : res value :=
  let init := mk_acc (VStr "") (VStr "") in
  walk <- for_lines init (split nl (strip output)) ;;
  match walk with
  | Return obj => Ok obj
  | Next a =>
      (* Prefer assistant_message content first *)
      first <- fallback_summary (last_assistant_content a) ;;
      match first with
      | Some summary => Ok summary
      | None =>
          (* Fall back to accumulated message content *)
          second <- fallback_summary (last_message_content a) ;;
          match second with
          | Some summary => Ok summary
          | None => Ok VNone
          end
      end
  end.

(** [main()]: reads all of standard input, parses it, and dumps either
    the summary (status 0) or the error object (status 1). *)
Definition main (stdin : string) : res process_end :=
  (* Try to parse summary from Claude's stream-json format *)
  summary <- parse_claude_stream_json stdin ;;
  if truthy summary then Ok (mk_end summary Stdout 0)
  else Ok no_summary_found.

End WithDecoder.
End Claude.

(* ================================================================== *)
(** * codex_parser.py *)
(* ================================================================== *)

Module Codex.
Import Py.

Section WithDecoder.

Variable json_loads : string -> res value.

(** [extract_json_block(text)]: a str, or [VNone]. *)
Definition extract_json_block (text : value) : res value :=
  text <- str_strip text ;;
  (* Check for markdown code block *)
  fenced <- contains "```json" text ;;
  span <- (if fenced then fence_span text else Ok None) ;;
  match span with
  | Some r => Ok r
  | None =>
  (* Check for code block without language tag *)
  fenced <- contains "```" text ;;
  span <- (if fenced then fence_span text else Ok None) ;;
  match span with
  | Some r => Ok r
  | None =>
  (* Check if the whole string is JSON *)
  whole <- and_then (str_startswith text "{") (str_endswith text "}") ;;
  if whole then Ok text
  else
    (* Look for first JSON object in the string *)
    start <- str_find text "{" ;;
    found <- (if start >=? 0 then for_braces text start else Ok None) ;;
    match found with
    | Some r => Ok r
    | None => Ok VNone
    end
  end end.

(** [extract_text_from_message(msg)] *)
Definition extract_text_from_message (msg : value) : res value :=
  has_message <- contains "message" msg ;;
  content <- (if has_message
              then message <- getitem msg "message" ;;
                   get message "content" (VStr "")
              else get msg "content" (VStr "")) ;;
  (* Handle different content formats *)
  match content with
  | VStr _ => Ok content
  | VDict _ =>
      has_text <- contains "text" content ;;
      if has_text then getitem content "text" else Ok (VStr "")
  | VList items =>
      joined <- join_nl (content_parts items) ;; Ok (VStr joined)
  | _ => Ok (VStr "")
  end.

(** [parse_summary_from_raw(raw)]: the object [raw] as the call leaves it
    (the function assigns to [raw["task_id"]]), and the returned
    reference, which is that object or [VNone]. *)
Definition parse_summary_from_raw (raw : value) : res (value * value) :=
  has_task_id <- contains "task_id" raw ;;
  has_status <- contains "status" raw ;;
  has_summary <- contains "summary" raw ;;
  has_files <- contains "files" raw ;;
  has_blockers <- contains "blockers" raw ;;
  if negb (has_task_id || has_status || has_summary || has_files || has_blockers)
  then Ok (raw, VNone)
  else
    (* Normalize task_id (null -> empty string) *)
    task_id <- get raw "task_id" VNone ;;
    raw <- (if is_none task_id then setitem raw "task_id" (VStr "")
            else Ok raw) ;;
    (* Check if summary has actual content *)
    no_text <- and_then (not_get raw "task_id")
                 (and_then (not_get raw "status") (not_get raw "summary")) ;;
    no_lists <- (if no_text
                 then and_then (not_get raw "files") (not_get raw "blockers")
                 else Ok false) ;;
    if no_lists then Ok (raw, VNone) else Ok (raw, raw).

(** The body of [for line in output.strip().split('\n')]: the value of
    [last_summary] after it. *)
Definition loop_body (last_summary : value) (line : string) : res value :=
  if negb (truthy (VStr (strip line))) then Ok last_summary
  else
    match json_loads line with
    | Raise JSONDecodeError => Ok last_summary      (* Not JSON, skip *)
    | Raise e => Raise e                     (* anything else goes up *)
    | Ok data =>
        (* Try to parse summary directly from the JSON object *)
        '(data, summary) <- parse_summary_from_raw data ;;
        if truthy summary then Ok summary
        else
          (* Try to extract summary from text content *)
          text <- extract_text_from_message data ;;
          if truthy text then
            json_str <- extract_json_block text ;;
            if truthy json_str then
              match
                obj <- json_loads_value json_loads json_str ;;
                parse_summary_from_raw obj
              with
              | Ok (_, summary) =>
                  Ok (if truthy summary then summary else last_summary)
              | Raise _ => Ok last_summary
              end
            else Ok last_summary
          else Ok last_summary
    end.

Fixpoint for_lines (last_summary : value) (lines : list string) : res value :=
  match lines with
  | [] => Ok last_summary
  | line :: rest =>
      last_summary <- loop_body last_summary line ;;
      for_lines last_summary rest
  end.

(** [parse_codex_ndjson(output)]: the summary, or [VNone]. *)
Definition parse_codex_ndjson (output : string) : res value :=
  for_lines VNone (split nl (strip output)).

(** [main()]: reads all of standard input, parses it, and dumps either
    the summary (status 0) or the error object (status 1). *)
Definition main (stdin : string) : res process_end :=
  (* Try to parse summary from Codex's NDJSON format *)
  summary <- parse_codex_ndjson stdin ;;
  if truthy summary then Ok (mk_end summary Stdout 0)
  else Ok no_summary_found.

End WithDecoder.
End Codex.

(* ================================================================== *)
(** * opencode_parser.py *)
(* ================================================================== *)

Module Opencode.
Import Py.

Section WithDecoder.

Variable json_loads : string -> res value.

(** [extract_json_block(text)]: a str; this file's last line returns the
    empty str where the other two return None. *)
Definition extract_json_block (text : value) : res value :=
  text <- str_strip text ;;
  (* Check for markdown code block *)
  fenced <- contains "```json" text ;;
  span <- (if fenced then fence_span text else Ok None) ;;
  match span with
  | Some r => Ok r
  | None =>
  (* Check for code block without language tag *)
  fenced <- contains "```" text ;;
  span <- (if fenced then fence_span text else Ok None) ;;
  match span with
  | Some r => Ok r
  | None =>
  (* Check if the whole string is JSON *)
  whole <- and_then (str_startswith text "{") (str_endswith text "}") ;;
  if whole then Ok text
  else
    (* Look for first JSON object in the string *)
    start <- str_find text "{" ;;
    found <- (if start >=? 0 then for_braces text start else Ok None) ;;
    match found with
    | Some r => Ok r
    | None => Ok (VStr "")
    end
  end end.

(** [parse_summary_from_raw(raw)]: the object [raw] as the call leaves it
    and the returned reference, that object or [VNone]. *)
Definition parse_summary_from_raw (raw : value) : res (value * value) :=
  has_task_id <- contains "task_id" raw ;;
  has_status <- contains "status" raw ;;
  has_summary_text <- contains "summary" raw ;;
  has_files <- contains "files" raw ;;
  has_blockers <- contains "blockers" raw ;;
  if negb (has_task_id || has_status || has_summary_text || has_files
           || has_blockers)
  then Ok (raw, VNone)
  else
    (* Normalize task_id (null -> empty string) *)
    task_id <- get raw "task_id" VNone ;;
    raw <- (if is_none task_id then setitem raw "task_id" (VStr "")
            else Ok raw) ;;
    (* Check if summary has actual content *)
    no_text <- and_then (not_get raw "task_id")
                 (and_then (not_get raw "status") (not_get raw "summary")) ;;
    no_lists <- (if no_text
                 then and_then (not_get raw "files") (not_get raw "blockers")
                 else Ok false) ;;
    if no_lists then Ok (raw, VNone) else Ok (raw, raw).

(** What a [try] block of this file yields:
<<
        data = json.loads(text)
        summary = parse_summary_from_raw(data)
        if summary:
            return summary
>>
    under a bare [except]: [Some summary] when the function returns here,
    [None] when the test fails or anything was raised. *)
Definition try_summary (text : value) : option value :=
  match
    data <- json_loads_value json_loads text ;;
    parse_summary_from_raw data
  with
  | Ok (_, summary) => if truthy summary then Some summary else None
  | Raise _ => None
  end.

(** The third tier, [for line in output.strip().split('\n')]: the first
    line that yields a summary ends the function. *)
Fixpoint for_lines (lines : list string) : value :=
  match lines with
  | [] => VNone
  | line :: rest =>
      if negb (truthy (VStr (strip line))) then for_lines rest
      else
        match try_summary (VStr line) with
        | Some summary => summary
        | None => for_lines rest
        end
  end.

(** [parse_opencode_output(output)]: the summary, or [VNone]. *)
Definition parse_opencode_output (output : string) : res value :=
  (* First, try to parse the entire output as JSON *)
  match try_summary (VStr (strip output)) with
  | Some summary => Ok summary
  | None =>
      (* Try to extract JSON from the output *)
      json_str <- extract_json_block (VStr output) ;;
      match (if truthy json_str then try_summary json_str else None) with
      | Some summary => Ok summary
      | None =>
          (* Try line-by-line parsing for NDJSON *)
          Ok (for_lines (split nl (strip output)))
      end
  end.

(** [main()]: reads all of standard input, parses it, and dumps either
    the summary (status 0) or the error object (status 1). *)
Definition main (stdin : string) : res process_end :=
  (* Try to parse summary from OpenCode output *)
  summary <- parse_opencode_output stdin ;;
  if truthy summary then Ok (mk_end summary Stdout 0)
  else Ok no_summary_found.

End WithDecoder.
End Opencode.

(* ================================================================== *)
(** * Vocabulary of the properties *)
(* ================================================================== *)

Import Py.

(** The five keys the validators inspect. *)
Definition recognized : list string :=
  ["task_id"; "status"; "summary"; "files"; "blockers"].

(** [d.get(k)] *)
Definition lookup (k : string) (d : dict) : value :=
  match dict_get k d with
  | Some v => v
  | None => VNone
  end.

(** Key [k] is missing from [d], or bound to a value that tests false. *)
Definition falsy_or_absent (k : string) (d : dict) : Prop :=
  forall v, dict_get k d = Some v -> truthy v = false.

(** The candidate after the validators' normalization step. *)
Definition normalized (d : dict) : dict :=
  if is_none (lookup "task_id" d) then dict_set "task_id" (VStr "") d else d.

(** A text without a brace. *)
Fixpoint brace_free (s : string) : bool :=
  match s with
  | EmptyString => true
  | String c s' =>
      negb (c =? "{")%char && negb (c =? "}")%char && brace_free s'
  end.

(** Texts whose braces are matched: what stands between the outer braces
    of a well-formed object that has no brace inside a string literal. *)
Inductive nested : string -> Prop :=
| nested_empty : nested EmptyString
| nested_char (c : ascii) (s : string) :
    (c =? "{")%char = false -> (c =? "}")%char = false -> nested s ->
    nested (String c s)
| nested_group (s t : string) :
    nested s -> nested t -> nested (String "{" (s ++ String "}" t))%string.

(** The object span with the given body. *)
Definition object_of (body : string) : string :=
  String "{" (body ++ String "}" EmptyString).

(** After the specification of the brace-counting scan: how many
    characters of [rest] are read until the depth, [depth] before [rest],
    first returns to zero on a closing brace; [None] if it never does. *)
Fixpoint first_close (rest : string) (depth : Z) : option nat :=
  match rest with
  | EmptyString => None
  | String c rest' =>
      let depth' := if (c =? "{")%char then depth + 1
                    else if (c =? "}")%char then depth - 1 else depth in
      if (c =? "}")%char && (depth' =? 0) then Some 1%nat
      else option_map S (first_close rest' depth')
  end.

(** What a validator computes on a dict, in closed form. *)
Definition validated (d : dict) : value * value :=
  if negb (dict_has "task_id" d || dict_has "status" d || dict_has "summary" d
           || dict_has "files" d || dict_has "blockers" d)
  then (VDict d, VNone)
  else
    let d' := normalized d in
    if negb (truthy (lookup "task_id" d')) && negb (truthy (lookup "status" d'))
       && negb (truthy (lookup "summary" d'))
       && negb (truthy (lookup "files" d'))
       && negb (truthy (lookup "blockers" d'))
    then (VDict d', VNone)
    else (VDict d', VDict d').

(** [line] is an assistant_message event of Adapter A on whose content
    the scanner succeeds: the line is not blank and decodes to an event of
    that type with a content that tests true; the scanner, given the
    content after the attempt to decode it, returns a block; and the block
    decodes to the object [obj], which has both a task_id and a status
    key.  An event whose content is itself a JSON document other than a
    string is not one of these: the scanner raises on what it decodes
    to. *)
Definition scanned_summary_event (json_loads : string -> res value)
    (line : string) (obj : value) : Prop :=
  exists data content json_str d,
    truthy (VStr (strip line)) = true
    /\ json_loads line = Ok data
    /\ get data "type" VNone = Ok (VStr "assistant_message")
    /\ get data "content" (VStr "") = Ok content
    /\ truthy content = true
    /\ Claude.extract_json_block json_loads
         (match json_loads_value json_loads content with
          | Ok unescaped => unescaped
          | Raise _ => content
          end) = Ok (VStr json_str)
    /\ truthy (VStr json_str) = true
    /\ json_loads json_str = Ok obj
    /\ obj = VDict d
    /\ dict_has "task_id" d = true
    /\ dict_has "status" d = true.

(** [line] is an assistant_message event of Adapter A whose content is
    itself the JSON text of a summary: the line is not blank and decodes
    to an event of that type whose content is a str that tests true, and
    the content decodes to the object [obj], which has both a task_id and
    a status key. *)
Definition object_summary_event (json_loads : string -> res value)
    (line : string) (obj : value) : Prop :=
  exists data content d,
    truthy (VStr (strip line)) = true
    /\ json_loads line = Ok data
    /\ get data "type" VNone = Ok (VStr "assistant_message")
    /\ get data "content" (VStr "") = Ok (VStr content)
    /\ truthy (VStr content) = true
    /\ json_loads content = Ok obj
    /\ obj = VDict d
    /\ dict_has "task_id" d = true
    /\ dict_has "status" d = true.

(** [line] is a line of Adapter B or C that decodes directly to a valid
    summary: it is not blank, it decodes, and the validator returns
    [summary] for the decoded event. *)
Definition direct_summary (json_loads : string -> res value)
    (validator : value -> res (value * value))
    (line : string) (summary : value) : Prop :=
  exists data raw',
    truthy (VStr (strip line)) = true
    /\ json_loads line = Ok data
    /\ validator data = Ok (raw', summary)
    /\ truthy summary = true.

(** What one line does to the current best of Adapter B, whatever that
    is: [Ok (Some summary)] when the line records [summary], from the
    decoded event or from the text of its message; [Ok None] when the
    loop goes on with the current best as it was (a blank line, a line
    that is not JSON, an event that holds no valid summary); [Raise e]
    when the line ends [parse_codex_ndjson] with the exception [e]. *)
Definition recorded_by (json_loads : string -> res value) (line : string)
    : res (option value) :=
  if negb (truthy (VStr (strip line))) then Ok None
  else
    match json_loads line with
    | Raise JSONDecodeError => Ok None
    | Raise e => Raise e
    | Ok data =>
        '(data, summary) <- Codex.parse_summary_from_raw data ;;
        if truthy summary then Ok (Some summary)
        else
          text <- Codex.extract_text_from_message data ;;
          if truthy text then
            json_str <- Codex.extract_json_block text ;;
            if truthy json_str then
              match
                obj <- json_loads_value json_loads json_str ;;
                Codex.parse_summary_from_raw obj
              with
              | Ok (_, summary) =>
                  Ok (if truthy summary then Some summary else None)
              | Raise _ => Ok None
              end
            else Ok None
          else Ok None
    end.

(** A value a validator may return as a summary: an object whose task_id
    is present and not None, with at least one of the five recognized
    fields testing true. *)
Definition accepted_summary (v : value) : Prop :=
  exists s,
    v = VDict s
    /\ (exists id, dict_get "task_id" s = Some id /\ id <> VNone)
    /\ (exists k, In k recognized /\ truthy (lookup k s) = true).

(** A value Adapter A may return at once: [in] finds both task_id and
    status in it. *)
Definition immediate_object (v : value) : Prop :=
  contains "task_id" v = Ok true /\ contains "status" v = Ok true.

(** The text a content part carries: a str part is its own text, an
    object part has its text field when that is a str, anything else has
    none. *)
Definition part_text (item : value) : string :=
  match item with
  | VStr s => s
  | VDict d =>
      match dict_get "text" d with
      | Some (VStr t) => t
      | _ => EmptyString
      end
  | _ => EmptyString
  end.

(** An object part whose text field tests true and is not a str. *)
Definition unjoinable_part (item : value) : bool :=
  match item with
  | VDict d =>
      match dict_get "text" d with
      | Some t => truthy t && negb (is_str t)
      | None => false
      end
  | _ => false
  end.

Definition nonempty (s : string) : bool := negb (s =? "")%string.

(** What the content normalizer computes from the object whose content
    field it reads, in closed form. *)
Definition content_text (c : dict) : res value :=
  match dict_get "content" c with
  | Some (VStr s) => Ok (VStr s)
  | Some (VDict t) =>
      match dict_get "text" t with
      | Some x => Ok x
      | None => Ok (VStr "")
      end
  | Some (VList items) =>
      joined <- join_nl (content_parts items) ;; Ok (VStr joined)
  | _ => Ok (VStr "")
  end.

(** A text without the character [c]. *)
Fixpoint lacks (c : ascii) (s : string) : bool :=
  match s with
  | EmptyString => true
  | String a s' => negb (a =? c)%char && lacks c s'
  end.

(** A line the walks go into: it is not blank, and [json.loads] does not
    raise JSONDecodeError on it (it returns, or raises something else). *)
Definition live (json_loads : string -> res value) (line : string) : bool :=
  truthy (VStr (strip line))
  && match json_loads line with
     | Raise JSONDecodeError => false
     | _ => true
     end.

(** [line] is a bare content_block_delta event of Adapter A: it carries
    the str [piece] as the text of its delta, and it has no message
    field.  (On an event that has one, the loop body first replaces the
    accumulated text by the text of the message, when that tests
    true.) *)
Definition bare_delta_event (json_loads : string -> res value)
    (line piece : string) : Prop :=
  exists d delta,
    truthy (VStr (strip line)) = true
    /\ json_loads line = Ok (VDict d)
    /\ dict_get "type" d = Some (VStr "content_block_delta")
    /\ dict_has "message" d = false
    /\ dict_get "delta" d = Some (VDict delta)
    /\ dict_get "text" delta = Some (VStr piece).

(** The text of [n] opening brackets, and the text of [n] digits 1. *)
Definition opened_arrays (n : nat) : string :=
  String.concat "" (repeat "[" n).

Definition digit_run (n : nat) : string :=
  String.concat "" (repeat "1" n).

(** How [main] ends for the parser's result [r]. *)
Definition report (r : value) : process_end :=
  if is_none r then no_summary_found else mk_end r Stdout 0.

(* ================================================================== *)
(** * Dictionaries *)
(* ================================================================== *)

Lemma dict_get_set_same (k : string) (v : value) (d : dict) :
  dict_get k (dict_set k v d) = Some v.
Proof.
  induction d as [|[k' v'] d IH]; simpl.
  - now rewrite String.eqb_refl.
  - destruct (k' =? k)%string eqn:E; simpl; rewrite E; auto.
Qed.

Lemma dict_get_set_other (k k' : string) (v : value) (d : dict) :
  k' <> k -> dict_get k' (dict_set k v d) = dict_get k' d.
Proof.
  intros Hne. induction d as [|[k0 v0] d IH]; simpl.
  - destruct (k =? k')%string eqn:E; auto.
    apply String.eqb_eq in E. congruence.
  - destruct (k0 =? k)%string eqn:E; simpl.
    + apply String.eqb_eq in E. subst k0.
      destruct (k =? k')%string eqn:E'; auto.
      apply String.eqb_eq in E'. congruence.
    + now rewrite IH.
Qed.

Lemma dict_set_absent (k : string) (v : value) (d : dict) :
  dict_get k d = None -> dict_set k v d = d ++ [(k, v)].
Proof.
  induction d as [|[k' v'] d IH]; simpl; auto.
  destruct (k' =? k)%string; [discriminate|].
  intros H. now rewrite IH.
Qed.

Lemma lookup_falsy (k : string) (d : dict) :
  negb (truthy (lookup k d)) = true <-> falsy_or_absent k d.
Proof.
  unfold lookup, falsy_or_absent. destruct (dict_get k d) as [v|].
  - rewrite negb_true_iff. split.
    + intros H v' [= <-]. exact H.
    + intros H. now apply H.
  - simpl. split; auto. intros _ v [=].
Qed.

Lemma lookup_normalized_other (k : string) (d : dict) :
  k <> "task_id" -> lookup k (normalized d) = lookup k d.
Proof.
  intros Hne. unfold normalized.
  destruct (is_none (lookup "task_id" d)); auto.
  unfold lookup. now rewrite dict_get_set_other.
Qed.

Lemma truthy_normalized_task_id (d : dict) :
  truthy (lookup "task_id" (normalized d)) = truthy (lookup "task_id" d).
Proof.
  unfold normalized.
  destruct (is_none (lookup "task_id" d)) eqn:E; auto.
  unfold lookup at 1. rewrite dict_get_set_same.
  destruct (lookup "task_id" d); now try discriminate.
Qed.

(* ================================================================== *)
(** * The summary validators *)
(* ================================================================== *)

Lemma codex_validator_on_dict (d : dict) :
  Codex.parse_summary_from_raw (VDict d) = Ok (validated d).
Proof.
  unfold Codex.parse_summary_from_raw, validated, normalized, lookup.
  cbn [contains bind get].
  destruct (negb _); [reflexivity|].
  fold (lookup "task_id" d).
  destruct (is_none _); cbn [setitem bind not_get and_then get];
    repeat match goal with
           | |- context [negb (truthy ?x)] => destruct (negb (truthy x)); cbn
           end; reflexivity.
Qed.

(** The three files carry the same validator. *)
Lemma claude_validator_is_codex (v : value) :
  Claude.parse_summary_from_line v = Codex.parse_summary_from_raw v.
Proof. reflexivity. Qed.

Lemma claude_validator_on_dict (d : dict) :
  Claude.parse_summary_from_line (VDict d) = Ok (validated d).
Proof. exact (codex_validator_on_dict d). Qed.

Lemma opencode_validator_is_codex (v : value) :
  Opencode.parse_summary_from_raw v = Codex.parse_summary_from_raw v.
Proof. reflexivity. Qed.

Lemma validated_rejects (d : dict) :
  snd (validated d) = VNone <->
  (forall k, In k recognized -> falsy_or_absent k d).
Proof.
  unfold validated.
  destruct (negb _) eqn:Hrec; simpl.
  - split; auto. intros _ k Hk v Hv.
    rewrite negb_true_iff, !orb_false_iff in Hrec.
    unfold dict_has in Hrec. simpl in Hk.
    destruct Hrec as [[[[H1 H2] H3] H4] H5].
    repeat (destruct Hk as [<-|Hk]; [rewrite Hv in *; discriminate|]).
    contradiction.
  - rewrite truthy_normalized_task_id.
    rewrite !lookup_normalized_other by discriminate.
    destruct (_ && _) eqn:Hall; simpl.
    + split; auto. intros _ k Hk.
      rewrite !andb_true_iff in Hall.
      destruct Hall as [[[[H1 H2] H3] H4] H5].
      simpl in Hk.
      repeat (destruct Hk as [<-|Hk]; [now apply lookup_falsy|]).
      contradiction.
    + split; [discriminate|]. intros H. exfalso.
      rewrite <- not_true_iff_false in Hall. apply Hall.
      rewrite !andb_true_iff.
      repeat split; apply lookup_falsy, H; simpl; auto 6.
Qed.

Lemma validated_accepts (d : dict) (raw' : value) (s : dict) :
  validated d = (raw', VDict s) -> raw' = VDict s /\ s = normalized d.
Proof.
  unfold validated.
  destruct (negb _); [discriminate|]. cbv zeta.
  destruct (_ && _); [discriminate|].
  intros [= <- <-]. auto.
Qed.

(** C6. A validator rejects a candidate object exactly when it has none of
    the five recognized keys, or task_id, status, summary, files and
    blockers are all falsy or absent; it never raises on an object.  This
    holds of [parse_summary_from_raw] (codex) and of
    [parse_summary_from_line] (claude).  The candidate with empty task_id,
    status and summary is rejected; the same with files [["a.py"]] is
    accepted. *)
Theorem validator_rejects_exactly_the_empty :
  (forall d : dict,
      exists raw' ret,
        Codex.parse_summary_from_raw (VDict d) = Ok (raw', ret)
        /\ Claude.parse_summary_from_line (VDict d) = Ok (raw', ret)
        /\ (ret = VNone <->
            (forall k, In k recognized -> dict_get k d = None)
            \/ (forall k, In k recognized -> falsy_or_absent k d)))
  /\ (let empty := [("task_id", VStr ""); ("status", VStr "");
                    ("summary", VStr "")] in
      Codex.parse_summary_from_raw (VDict empty) = Ok (VDict empty, VNone)
      /\ Claude.parse_summary_from_line (VDict empty)
         = Ok (VDict empty, VNone))
  /\ (let with_files := [("task_id", VStr ""); ("status", VStr "");
                         ("summary", VStr "");
                         ("files", VList [VStr "a.py"])] in
      Codex.parse_summary_from_raw (VDict with_files)
      = Ok (VDict with_files, VDict with_files)
      /\ Claude.parse_summary_from_line (VDict with_files)
         = Ok (VDict with_files, VDict with_files)).
Proof.
  split; [|split; split; reflexivity].
  intros d. exists (fst (validated d)), (snd (validated d)).
  rewrite claude_validator_on_dict, codex_validator_on_dict.
  rewrite <- surjective_pairing. repeat split; auto.
  - intros H. right. now apply validated_rejects.
  - intros [H|H]; apply validated_rejects; auto.
    intros k Hk v Hv. rewrite (H k Hk) in Hv. discriminate.
Qed.

(** C7. A candidate whose task_id key is absent and a candidate whose
    task_id is null are validated alike.  For a candidate [d] of either
    kind, let [s] be [d] after the assignment [raw["task_id"] = ""]; its
    task_id is the empty string.  When one of status, summary, files and
    blockers tests true in [d], each of the three validators accepts [d]
    and returns [s], which is also what it leaves in place of [d]; and
    whenever a validator returns an object for [d], that object is
    [s]. *)
Theorem null_and_absent_task_id_converge (d : dict) :
  dict_get "task_id" d = None \/ dict_get "task_id" d = Some VNone ->
  let s := dict_set "task_id" (VStr "") d in
  dict_get "task_id" s = Some (VStr "")
  /\ ((exists k, In k ["status"; "summary"; "files"; "blockers"]
                 /\ truthy (lookup k d) = true) ->
      Codex.parse_summary_from_raw (VDict d) = Ok (VDict s, VDict s)
      /\ Claude.parse_summary_from_line (VDict d) = Ok (VDict s, VDict s)
      /\ Opencode.parse_summary_from_raw (VDict d) = Ok (VDict s, VDict s))
  /\ (forall (raw' : value) (s' : dict),
        Codex.parse_summary_from_raw (VDict d) = Ok (raw', VDict s')
        \/ Claude.parse_summary_from_line (VDict d) = Ok (raw', VDict s')
        \/ Opencode.parse_summary_from_raw (VDict d) = Ok (raw', VDict s') ->
        raw' = VDict s /\ s' = s).
Proof.
  intros Hid s.
  assert (Hnorm : normalized d = s).
  { unfold normalized, lookup. now destruct Hid as [-> | ->]. }
  split; [apply dict_get_set_same|split].
  - intros (k & Hk & Htrue).
    assert (H : validated d = (VDict s, VDict s)).
    { unfold validated. rewrite Hnorm.
      assert (Hs : lookup k s = lookup k d).
      { rewrite <- Hnorm. apply lookup_normalized_other.
        simpl in Hk. intros ->.
        repeat (destruct Hk as [Hk|Hk]; [discriminate Hk|]). exact Hk. }
      assert (Hhas : dict_has k d = true).
      { unfold dict_has. unfold lookup in Htrue.
        destruct (dict_get k d); [reflexivity|discriminate Htrue]. }
      rewrite <- Hs in Htrue. simpl in Hk.
      destruct Hk as [<-|[<-|[<-|[<-|[]]]]]; rewrite Hhas, Htrue;
        rewrite ?orb_true_r; cbn [negb andb orb]; rewrite ?andb_false_r;
        reflexivity. }
    pose proof (codex_validator_on_dict d) as Hc. rewrite H in Hc.
    split; [|split]; exact Hc.
  - intros raw' s' Hacc.
    pose proof (codex_validator_on_dict d) as Hc.
    assert (H : validated d = (raw', VDict s')).
    { destruct Hacc as [H|[H|H]];
        change (Codex.parse_summary_from_raw (VDict d)
                = Ok (raw', VDict s')) in H;
        congruence. }
    apply validated_accepts in H. rewrite Hnorm in H.
    destruct H as [-> ->]. auto.
Qed.

(** The two candidates of the specification, one without a task_id
    through the validator of codex_parser.py and one with a null task_id
    through that of claude_parser.py. *)
Lemma null_and_absent_task_id_converge_witness :
  Codex.parse_summary_from_raw
    (VDict [("status", VStr "ok"); ("summary", VStr "done")])
  = Ok (VDict [("status", VStr "ok"); ("summary", VStr "done");
               ("task_id", VStr "")],
        VDict [("status", VStr "ok"); ("summary", VStr "done");
               ("task_id", VStr "")])
  /\ Claude.parse_summary_from_line
       (VDict [("task_id", VNone); ("status", VStr "ok");
               ("summary", VStr "done")])
     = Ok (VDict [("task_id", VStr ""); ("status", VStr "ok");
                  ("summary", VStr "done")],
           VDict [("task_id", VStr ""); ("status", VStr "ok");
                  ("summary", VStr "done")]).
Proof.
  split.
  - refine (proj1 (proj1 (proj2 (null_and_absent_task_id_converge
                      [("status", VStr "ok"); ("summary", VStr "done")]
                      (or_introl eq_refl))) _)).
    exists "status". split; [simpl; auto|reflexivity].
  - refine (proj1 (proj2 (proj1 (proj2 (null_and_absent_task_id_converge
                      [("task_id", VNone); ("status", VStr "ok");
                       ("summary", VStr "done")]
                      (or_intror eq_refl))) _))).
    exists "status". split; [simpl; auto|reflexivity].
Defined.

(** C8, as stated: a candidate supplied without a task_id key would come
    back without one.  It fails on the candidate with status "ok" and
    summary "done" and no task_id: the validator accepts it and the
    summary it returns has task_id bound to the empty string. *)
Lemma absent_task_id_not_preserved :
  ~ (forall (d : dict) (raw' : value) (s : dict),
        dict_get "task_id" d = None ->
        Codex.parse_summary_from_raw (VDict d) = Ok (raw', VDict s) ->
        dict_get "task_id" s = None).
Proof.
  intros H.
  specialize (H [("status", VStr "ok"); ("summary", VStr "done")]
                (VDict [("status", VStr "ok"); ("summary", VStr "done");
                        ("task_id", VStr "")])
                [("status", VStr "ok"); ("summary", VStr "done");
                 ("task_id", VStr "")]
                eq_refl eq_refl).
  discriminate H.
Qed.

(** C8, amended. When a validator accepts a candidate supplied without a
    task_id key, the summary it returns is the candidate with one binding
    added at the end: task_id, bound to the empty string.  An absent
    task_id is treated as a null one. *)
Theorem absent_task_id_is_inserted
    (d : dict) (raw' : value) (s : dict) :
  dict_get "task_id" d = None ->
  Codex.parse_summary_from_raw (VDict d) = Ok (raw', VDict s)
  \/ Claude.parse_summary_from_line (VDict d) = Ok (raw', VDict s) ->
  s = d ++ [("task_id", VStr "")].
Proof.
  intros Hid Hacc.
  assert (H : validated d = (raw', VDict s)).
  { destruct Hacc as [H|H];
      [rewrite codex_validator_on_dict in H
      |rewrite claude_validator_on_dict in H]; congruence. }
  apply validated_accepts in H. destruct H as [_ ->].
  unfold normalized, lookup. rewrite Hid. simpl.
  now apply dict_set_absent.
Qed.

Lemma absent_task_id_is_inserted_witness :
  [("status", VStr "ok"); ("summary", VStr "done"); ("task_id", VStr "")]
  = [("status", VStr "ok"); ("summary", VStr "done")]
    ++ [("task_id", VStr "")].
Proof.
  apply (absent_task_id_is_inserted
           [("status", VStr "ok"); ("summary", VStr "done")]
           (VDict [("status", VStr "ok"); ("summary", VStr "done");
                   ("task_id", VStr "")])).
  - reflexivity.
  - left. reflexivity.
Defined.

(** C9. When the validator accepts a candidate object, every key other
    than task_id has in the returned summary exactly the binding it had in
    the candidate: none is added, removed or changed, whether or not it is
    one of the recognized five.  The returned reference is the candidate
    object itself, as the call left it. *)
Theorem validator_passes_other_keys_through
    (d : dict) (raw' : value) (s : dict) :
  Codex.parse_summary_from_raw (VDict d) = Ok (raw', VDict s) ->
  raw' = VDict s
  /\ forall k, k <> "task_id" -> dict_get k s = dict_get k d.
Proof.
  intros Hacc. rewrite codex_validator_on_dict in Hacc.
  injection Hacc as Hacc. apply validated_accepts in Hacc.
  destruct Hacc as [-> ->]. split; auto.
  intros k Hk. unfold normalized.
  destruct (is_none _); auto using dict_get_set_other.
Qed.

Lemma validator_passes_other_keys_through_witness :
  let d := [("status", VStr "ok"); ("model", VStr "m1");
            ("task_id", VNone); ("tokens", VInt 12)] in
  let s := [("status", VStr "ok"); ("model", VStr "m1");
            ("task_id", VStr ""); ("tokens", VInt 12)] in
  VDict s = VDict s
  /\ forall k, k <> "task_id" -> dict_get k s = dict_get k d.
Proof.
  apply (validator_passes_other_keys_through
           [("status", VStr "ok"); ("model", VStr "m1");
            ("task_id", VNone); ("tokens", VInt 12)]).
  reflexivity.
Defined.

(* ================================================================== *)
(** * Adapter A: the assistant-message dialect *)
(* ================================================================== *)

Section AdapterA.

Variable json_loads : string -> res value.

Lemma claude_for_lines_app (a : Claude.acc) (l1 l2 : list string) :
  Claude.for_lines json_loads a (l1 ++ l2) =
  (step <- Claude.for_lines json_loads a l1 ;;
   match step with
   | Claude.Return obj => Ok (Claude.Return obj)
   | Claude.Next a' => Claude.for_lines json_loads a' l2
   end).
Proof.
  revert a. induction l1 as [|line l1 IH]; intros a; simpl.
  - reflexivity.
  - destruct (Claude.loop_body json_loads a line) as [[obj|a']|e]; simpl; auto.
Qed.

(** The loop body returns at a summary event, whatever the accumulators
    hold. *)
Lemma scanned_summary_event_returns (a : Claude.acc) (line : string) (obj : value) :
  scanned_summary_event json_loads line obj ->
  Claude.loop_body json_loads a line = Ok (Claude.Return obj).
Proof.
  intros (data & content & json_str & d & Hline & Hdata & Htype & Hcontent
          & Htruthy & Hblock & Hstr & Hobj & -> & Hid & Hstatus).
  unfold Claude.loop_body.
  rewrite Hline, Hdata, Htype. cbn [negb bind eq_str String.eqb].
  simpl. rewrite Hcontent. cbn [bind]. rewrite Htruthy.
  unfold Claude.immediate_summary. rewrite Hblock. cbn [bind].
  rewrite Hstr. cbn [json_loads_value]. rewrite Hobj.
  cbn [bind contains and_then]. rewrite Hid, Hstatus. reflexivity.
Qed.

Lemma scanned_summary_event_ends_walk
    (a0 a : Claude.acc) (before later : list string) (line : string)
    (obj : value) :
  Claude.for_lines json_loads a0 before = Ok (Claude.Next a) ->
  scanned_summary_event json_loads line obj ->
  Claude.for_lines json_loads a0 (before ++ line :: later)
  = Ok (Claude.Return obj).
Proof.
  intros Hbefore Hev.
  rewrite claude_for_lines_app, Hbefore. cbn [bind Claude.for_lines].
  now rewrite (scanned_summary_event_returns a line obj Hev).
Qed.

(** An event whose content is itself the JSON text of an object ends the
    loop body with AttributeError: [content] is replaced by the decoded
    object, and the scanner starts by calling [strip] on it, outside any
    [try]. *)
Lemma object_summary_event_raises
    (a : Claude.acc) (line : string) (obj : value) :
  object_summary_event json_loads line obj ->
  Claude.loop_body json_loads a line = Raise AttributeError.
Proof.
  intros (data & content & d & Hline & Hdata & Htype & Hcontent & Htruthy
          & Hobj & -> & _ & _).
  unfold Claude.loop_body.
  rewrite Hline, Hdata, Htype. cbn [negb bind eq_str String.eqb].
  simpl. rewrite Hcontent. cbn [bind]. rewrite Htruthy.
  cbn [json_loads_value]. rewrite Hobj. reflexivity.
Qed.

(** C2. The short-circuit of Adapter A fails on the event it is written
    for.  When the walk reaches a line that is an assistant_message event
    whose content is itself the JSON text of an object with both a
    task_id and a status key, [parse_claude_stream_json] does not return
    that object: it raises AttributeError, whatever lines come after. *)
Theorem short_circuit_raises_on_object_content
    (output : string) (before later : list string) (line : string)
    (a : Claude.acc) (obj : value) :
  split nl (strip output) = before ++ line :: later ->
  Claude.for_lines json_loads (Claude.mk_acc (VStr "") (VStr "")) before
  = Ok (Claude.Next a) ->
  object_summary_event json_loads line obj ->
  Claude.parse_claude_stream_json json_loads output = Raise AttributeError.
Proof.
  intros Hsplit Hbefore Hev. unfold Claude.parse_claude_stream_json.
  rewrite Hsplit, claude_for_lines_app, Hbefore.
  cbn [bind Claude.for_lines].
  now rewrite (object_summary_event_raises a line obj Hev).
Qed.

(** X23. The short-circuit of Adapter A, where the scanner returns.  When
    the walk reaches a line that is an assistant_message event on whose
    content (as the attempt to decode it leaves it) the scanner returns a
    block, and the block decodes to an object with both a task_id and a
    status key, that object is the result of [parse_claude_stream_json];
    the lines after it have no effect: the result is the same for any
    other lines in their place.  Such is a content of prose around the
    object; a content that is itself the JSON text of the object is not,
    since the scanner raises on it. *)
Theorem short_circuit_ignores_later_lines
    (output : string) (before later : list string) (line : string)
    (a : Claude.acc) (obj : value) :
  split nl (strip output) = before ++ line :: later ->
  Claude.for_lines json_loads (Claude.mk_acc (VStr "") (VStr "")) before
  = Ok (Claude.Next a) ->
  scanned_summary_event json_loads line obj ->
  Claude.parse_claude_stream_json json_loads output = Ok obj
  /\ forall output',
      (exists later', split nl (strip output') = before ++ line :: later') ->
      Claude.parse_claude_stream_json json_loads output' = Ok obj.
Proof.
  intros Hsplit Hbefore Hev.
  assert (H : forall out,
             (exists l, split nl (strip out) = before ++ line :: l) ->
             Claude.parse_claude_stream_json json_loads out = Ok obj).
  { intros out [l Hl]. unfold Claude.parse_claude_stream_json.
    rewrite Hl, (scanned_summary_event_ends_walk _ a before l line obj Hbefore Hev).
    reflexivity. }
  split; [apply H; eauto | exact H].
Qed.

(** X24. The immediate return of Adapter A, where the scanner returns,
    does not go through the validator.  For an assistant_message event on
    whose content (as the attempt to decode it leaves it) the scanner
    returns a block that decodes to an object with both a task_id and a
    status key, the object is returned exactly as decoded.  Where its
    task_id is null the returned task_id is still null, though
    [parse_summary_from_line] would have made it the empty string; and
    where the five recognized fields are all falsy or absent it is
    returned all the same, though [parse_summary_from_line] rejects it.
    A content that is itself the JSON text of the object is not covered:
    the scanner raises on it. *)
Theorem immediate_return_bypasses_validator
    (output : string) (before later : list string) (line : string)
    (a : Claude.acc) (d : dict) :
  split nl (strip output) = before ++ line :: later ->
  Claude.for_lines json_loads (Claude.mk_acc (VStr "") (VStr "")) before
  = Ok (Claude.Next a) ->
  scanned_summary_event json_loads line (VDict d) ->
  Claude.parse_claude_stream_json json_loads output = Ok (VDict d)
  /\ (dict_get "task_id" d = Some VNone ->
      exists s ret,
        Claude.parse_summary_from_line (VDict d) = Ok (VDict s, ret)
        /\ dict_get "task_id" s = Some (VStr ""))
  /\ ((forall k, In k recognized -> falsy_or_absent k d) ->
      exists raw', Claude.parse_summary_from_line (VDict d) = Ok (raw', VNone)).
Proof.
  intros Hsplit Hbefore Hev. split; [|split].
  - unfold Claude.parse_claude_stream_json.
    rewrite Hsplit, (scanned_summary_event_ends_walk _ a before later line _ Hbefore Hev).
    reflexivity.
  - intros Hnull. rewrite claude_validator_on_dict.
    destruct Hev as (data & content & json_str & d' & _ & _ & _ & _ & _ & _
                     & _ & _ & [= <-] & Hid & _).
    exists (normalized d), (snd (validated d)). split.
    + unfold validated. rewrite Hid. cbn [orb negb]. cbv zeta.
      destruct (_ && _); reflexivity.
    + unfold normalized, lookup. rewrite Hnull. apply dict_get_set_same.
  - intros Hempty. rewrite claude_validator_on_dict.
    exists (fst (validated d)).
    apply validated_rejects in Hempty. rewrite <- Hempty.
    now rewrite <- surjective_pairing.
Qed.

End AdapterA.

(** A run of Adapter A: a system event, then an assistant message whose
    content is the summary object, then a line that is itself a summary
    object.  The run ends with AttributeError. *)
Lemma short_circuit_raises_on_object_content_witness :
  Claude.parse_claude_stream_json Json.loads
    (Json.unlines
       [Json.js "{'type':'system','note':'start'}";
        Json.js "{'type':'assistant_message','content':'{\'task_id\':\'t1\',\'status\':\'ok\'}'}";
        Json.js "{'task_id':'t2','status':'later'}"])
  = Raise AttributeError.
Proof.
  refine (short_circuit_raises_on_object_content Json.loads _
            [Json.js "{'type':'system','note':'start'}"]
            [Json.js "{'task_id':'t2','status':'later'}"]
            (Json.js "{'type':'assistant_message','content':'{\'task_id\':\'t1\',\'status\':\'ok\'}'}")
            (Claude.mk_acc (VStr "") (VStr ""))
            (VDict [("task_id", VStr "t1"); ("status", VStr "ok")]) _ _ _).
  - vm_compute. reflexivity.
  - vm_compute. reflexivity.
  - exists (VDict [("type", VStr "assistant_message");
                   ("content",
                    VStr (Json.js "{'task_id':'t1','status':'ok'}"))]),
           (Json.js "{'task_id':'t1','status':'ok'}"),
           [("task_id", VStr "t1"); ("status", VStr "ok")].
    split; [|split; [|split; [|split; [|split; [|split; [|split;
      [|split]]]]]]]; vm_compute; reflexivity.
Defined.

(** C10. The immediate return of Adapter A does not hand back the object
    of the event it is written for.  On the assistant_message event whose
    content is the JSON text of the object with a null task_id and an
    empty status, [parse_claude_stream_json] raises AttributeError
    instead of returning that object as decoded.  With the same object
    after a word of prose in the content, the object is returned as
    decoded, task_id null, although the validator rejects it. *)
Theorem immediate_return_raises_on_object_content :
  Claude.parse_claude_stream_json Json.loads
    (Json.js "{'type':'assistant_message','content':'{\'task_id\':null,\'status\':\'\'}'}")
  = Raise AttributeError
  /\ Claude.parse_claude_stream_json Json.loads
       (Json.js "{'type':'assistant_message','content':'Result: {\'task_id\':null,\'status\':\'\'}'}")
     = Ok (VDict [("task_id", VNone); ("status", VStr "")])
  /\ Claude.parse_summary_from_line
       (VDict [("task_id", VNone); ("status", VStr "")])
     = Ok (VDict [("task_id", VStr ""); ("status", VStr "")], VNone).
Proof. split; [|split]; vm_compute; reflexivity. Qed.

(** A run of Adapter A: a system event, then an assistant message whose
    content holds a summary after some prose, then a line that is itself a
    summary object.  The assistant message's summary is the result. *)
Lemma short_circuit_ignores_later_lines_witness :
  Claude.parse_claude_stream_json Json.loads
    (Json.unlines
       [Json.js "{'type':'system','note':'start'}";
        Json.js "{'type':'assistant_message','content':'Done. {\'task_id\':\'t1\',\'status\':\'ok\'}'}";
        Json.js "{'task_id':'t2','status':'later'}"])
  = Ok (VDict [("task_id", VStr "t1"); ("status", VStr "ok")]).
Proof.
  refine (proj1 (short_circuit_ignores_later_lines Json.loads _
                   [Json.js "{'type':'system','note':'start'}"]
                   [Json.js "{'task_id':'t2','status':'later'}"]
                   (Json.js "{'type':'assistant_message','content':'Done. {\'task_id\':\'t1\',\'status\':\'ok\'}'}")
                   (Claude.mk_acc (VStr "") (VStr "")) _ _ _ _)).
  - vm_compute. reflexivity.
  - vm_compute. reflexivity.
  - exists (VDict [("type", VStr "assistant_message");
                   ("content",
                    VStr (Json.js "Done. {'task_id':'t1','status':'ok'}"))]),
           (VStr (Json.js "Done. {'task_id':'t1','status':'ok'}")),
           (Json.js "{'task_id':'t1','status':'ok'}"),
           [("task_id", VStr "t1"); ("status", VStr "ok")].
    repeat split; vm_compute; reflexivity.
Defined.

(** A run of Adapter A whose assistant message holds an object with a null
    task_id and an empty status: it is the result as it stands, although
    the validator rejects that object. *)
Lemma immediate_return_bypasses_validator_witness :
  Claude.parse_claude_stream_json Json.loads
    (Json.js "{'type':'assistant_message','content':'Result: {\'task_id\':null,\'status\':\'\'}'}")
  = Ok (VDict [("task_id", VNone); ("status", VStr "")])
  /\ Claude.parse_summary_from_line
       (VDict [("task_id", VNone); ("status", VStr "")])
     = Ok (VDict [("task_id", VStr ""); ("status", VStr "")], VNone).
Proof.
  split; [|reflexivity].
  refine (proj1 (immediate_return_bypasses_validator Json.loads _ [] []
                   (Json.js "{'type':'assistant_message','content':'Result: {\'task_id\':null,\'status\':\'\'}'}")
                   (Claude.mk_acc (VStr "") (VStr ""))
                   [("task_id", VNone); ("status", VStr "")] _ _ _)).
  - vm_compute. reflexivity.
  - reflexivity.
  - exists (VDict [("type", VStr "assistant_message");
                   ("content",
                    VStr (Json.js "Result: {'task_id':null,'status':''}"))]),
           (VStr (Json.js "Result: {'task_id':null,'status':''}")),
           (Json.js "{'task_id':null,'status':''}"),
           [("task_id", VNone); ("status", VStr "")].
    repeat split; vm_compute; reflexivity.
Defined.

(* ================================================================== *)
(** * Adapter B: the newline-delimited dialect *)
(* ================================================================== *)

Section AdapterB.

Variable json_loads : string -> res value.

Lemma codex_for_lines_app (last : value) (l1 l2 : list string) :
  Codex.for_lines json_loads last (l1 ++ l2) =
  (last' <- Codex.for_lines json_loads last l1 ;;
   Codex.for_lines json_loads last' l2).
Proof.
  revert last. induction l1 as [|line l1 IH]; intros last; simpl.
  - reflexivity.
  - destruct (Codex.loop_body json_loads last line); simpl; auto.
Qed.

(** A line that decodes directly to a valid summary records it, whatever
    was recorded before. *)
Lemma direct_summary_recorded (last : value) (line : string) (s : value) :
  direct_summary json_loads Codex.parse_summary_from_raw line s ->
  Codex.loop_body json_loads last line = Ok s.
Proof.
  intros (data & raw' & Hline & Hdata & Hvalid & Htruthy).
  unfold Codex.loop_body.
  rewrite Hline, Hdata, Hvalid. cbn [negb bind]. now rewrite Htruthy.
Qed.

(** The loop body of Adapter B, line by line: the current best after a
    line is what the line records, or the current best before it. *)
Lemma codex_loop_body_records (last : value) (line : string) :
  Codex.loop_body json_loads last line
  = (r <- recorded_by json_loads line ;;
     Ok (match r with
         | Some summary => summary
         | None => last
         end)).
Proof.
  unfold Codex.loop_body, recorded_by.
  destruct (negb _); [reflexivity|].
  destruct (json_loads line) as [data|e]; [|destruct e; reflexivity].
  destruct (Codex.parse_summary_from_raw data) as [[data' summary]|];
    cbn [bind]; [|reflexivity].
  destruct (truthy summary); [reflexivity|].
  destruct (Codex.extract_text_from_message data') as [text|]; cbn [bind];
    [|reflexivity].
  destruct (truthy text); [|reflexivity].
  destruct (Codex.extract_json_block text) as [json_str|]; cbn [bind];
    [|reflexivity].
  destruct (truthy json_str); [|reflexivity].
  destruct (json_loads_value json_loads json_str) as [obj|]; cbn [bind];
    [|reflexivity].
  destruct (Codex.parse_summary_from_raw obj) as [[obj' s]|]; [|reflexivity].
  destruct (truthy s); reflexivity.
Qed.

(** Lines that record nothing leave the current best as it is. *)
Lemma silent_lines_keep_best (last : value) (lines : list string) :
  (forall l, In l lines -> recorded_by json_loads l = Ok None) ->
  Codex.for_lines json_loads last lines = Ok last.
Proof.
  induction lines as [|line lines IH]; intros H; simpl.
  - reflexivity.
  - rewrite codex_loop_body_records, (H line (or_introl eq_refl)).
    cbn [bind]. apply IH. intros l Hl. apply H. now right.
Qed.

(** C3, amended. In a run of Adapter B, take a line that decodes directly
    to a valid summary, such that the lines before it are walked without
    an exception, and every line after it is walked without an exception
    and records nothing: it is blank, or not JSON, or an event that the
    validator rejects and whose message text yields no valid summary.
    The result of [parse_codex_ndjson] is the summary of that line,
    whatever the lines before it recorded: of two lines that are valid
    summaries, with nothing recorded after the second, the second
    wins.  A later line that raises is left out. *)
Theorem last_recorded_summary_wins
    (output : string) (before after : list string) (line : string)
    (prev s : value) :
  split nl (strip output) = before ++ line :: after ->
  Codex.for_lines json_loads VNone before = Ok prev ->
  direct_summary json_loads Codex.parse_summary_from_raw line s ->
  (forall l, In l after -> recorded_by json_loads l = Ok None) ->
  Codex.parse_codex_ndjson json_loads output = Ok s.
Proof.
  intros Hsplit Hbefore Hline Hafter.
  unfold Codex.parse_codex_ndjson.
  rewrite Hsplit, codex_for_lines_app, Hbefore.
  cbn [bind Codex.for_lines].
  rewrite (direct_summary_recorded prev line s Hline). cbn [bind].
  now apply silent_lines_keep_best.
Qed.

End AdapterB.

(** C3, as stated: of the lines that decode directly to a valid summary,
    the last one would give the result.  It fails on the three lines
<<
    {"status":"a"}
    {"status":"b"}
    {"message":{"content":"{\"status\":\"c\"}"}}
>>
    where the third line is no summary itself but its message text holds
    one: the result has status "c", not the "b" of the second line. *)
Lemma later_message_text_overrides_direct_line :
  ~ (forall (output : string) (before after : list string) (line : string)
            (s : value),
        split nl (strip output) = before ++ line :: after ->
        (exists l0 s0,
            In l0 before
            /\ direct_summary Json.loads Codex.parse_summary_from_raw l0 s0) ->
        direct_summary Json.loads Codex.parse_summary_from_raw line s ->
        (forall l s', In l after ->
            ~ direct_summary Json.loads Codex.parse_summary_from_raw l s') ->
        Codex.parse_codex_ndjson Json.loads output = Ok s).
Proof.
  intros H.
  specialize (H (Json.unlines
                   [Json.js "{'status':'a'}"; Json.js "{'status':'b'}";
                    Json.js "{'message':{'content':'{\'status\':\'c\'}'}}"])
                [Json.js "{'status':'a'}"]
                [Json.js "{'message':{'content':'{\'status\':\'c\'}'}}"]
                (Json.js "{'status':'b'}")
                (VDict [("status", VStr "b"); ("task_id", VStr "")])).
  assert (Hres : Codex.parse_codex_ndjson Json.loads
                   (Json.unlines
                      [Json.js "{'status':'a'}"; Json.js "{'status':'b'}";
                       Json.js "{'message':{'content':'{\'status\':\'c\'}'}}"])
                 = Ok (VDict [("status", VStr "c"); ("task_id", VStr "")]))
    by (vm_compute; reflexivity).
  rewrite Hres in H.
  assert (Habs : Ok (VDict [("status", VStr "c"); ("task_id", VStr "")])
                 = Ok (VDict [("status", VStr "b"); ("task_id", VStr "")])).
  { apply H.
    - vm_compute. reflexivity.
    - exists (Json.js "{'status':'a'}"),
             (VDict [("status", VStr "a"); ("task_id", VStr "")]).
      split; [now left|].
      exists (VDict [("status", VStr "a")]),
             (VDict [("status", VStr "a"); ("task_id", VStr "")]).
      repeat split; vm_compute; reflexivity.
    - exists (VDict [("status", VStr "b")]),
             (VDict [("status", VStr "b"); ("task_id", VStr "")]).
      repeat split; vm_compute; reflexivity.
    - intros l s' [<-|[]] (data & raw' & _ & Hdata & Hvalid & Htruthy).
      vm_compute in Hdata. injection Hdata as <-.
      vm_compute in Hvalid. injection Hvalid as _ <-.
      discriminate Htruthy. }
  discriminate Habs.
Qed.

(** Two summary lines that differ in status, then lines that record
    nothing: prose, an event without summary fields, and a message whose
    text holds no object.  The status of the result is that of the second
    summary line. *)
Lemma last_recorded_summary_wins_witness :
  Codex.parse_codex_ndjson Json.loads
    (Json.unlines
       [Json.js "{'task_id':'t1','status':'running'}";
        Json.js "{'task_id':'t1','status':'done'}";
        "remaining output";
        Json.js "{'type':'usage','tokens':12}";
        Json.js "{'message':{'content':'All done, nothing to add.'}}"])
  = Ok (VDict [("task_id", VStr "t1"); ("status", VStr "done")]).
Proof.
  apply (last_recorded_summary_wins Json.loads _
           [Json.js "{'task_id':'t1','status':'running'}"]
           ["remaining output";
            Json.js "{'type':'usage','tokens':12}";
            Json.js "{'message':{'content':'All done, nothing to add.'}}"]
           (Json.js "{'task_id':'t1','status':'done'}")
           (VDict [("task_id", VStr "t1"); ("status", VStr "running")])).
  - vm_compute. reflexivity.
  - vm_compute. reflexivity.
  - exists (VDict [("task_id", VStr "t1"); ("status", VStr "done")]),
           (VDict [("task_id", VStr "t1"); ("status", VStr "done")]).
    repeat split; vm_compute; reflexivity.
  - intros l [<-|[<-|[<-|[]]]]; vm_compute; reflexivity.
Defined.

(** A later line that decodes to something other than an object does not
    leave the current best alone: it ends the run with an exception. *)
Lemma later_non_object_line_raises :
  recorded_by Json.loads "42" = Raise TypeError
  /\ Codex.parse_codex_ndjson Json.loads
       (Json.unlines [Json.js "{'task_id':'t1','status':'done'}"; "42"])
     = Raise TypeError.
Proof. split; vm_compute; reflexivity. Qed.

(* ================================================================== *)
(** * Adapter C: the best-effort dialect *)
(* ================================================================== *)

(** On a str the text scanner of this file always returns, and returns a
    str. *)
Lemma opencode_block_is_str (s : string) :
  exists r, Opencode.extract_json_block (VStr s) = Ok (VStr r).
Proof.
  unfold Opencode.extract_json_block, fence_span, for_braces.
  cbn [str_strip bind contains str_find str_rfind getslice str_startswith
       str_endswith and_then].
  repeat match goal with
         | |- context [if ?b then _ else _] => destruct b; cbn
         | |- context [brace_loop ?a ?b ?c ?d ?e] =>
             destruct (brace_loop a b c d e); cbn
         end; eauto.
Qed.

Section AdapterC.

Variable json_loads : string -> res value.

(** [parse_opencode_output] raises nothing: every step that can raise is
    under a bare [except]. *)
Lemma opencode_never_raises (output : string) :
  exists r, Opencode.parse_opencode_output json_loads output = Ok r.
Proof.
  unfold Opencode.parse_opencode_output.
  destruct (Opencode.try_summary json_loads (VStr (strip output))); eauto.
  destruct (opencode_block_is_str output) as [r ->]. cbn [bind].
  destruct (if truthy (VStr r) then _ else _); eauto.
Qed.

(** Lines that are blank or yield no summary are passed over. *)
Lemma opencode_for_lines_skip (before rest : list string) :
  (forall l, In l before ->
             truthy (VStr (strip l)) = false
             \/ Opencode.try_summary json_loads (VStr l) = None) ->
  Opencode.for_lines json_loads (before ++ rest)
  = Opencode.for_lines json_loads rest.
Proof.
  induction before as [|l before IH]; intros H;
    cbn [app Opencode.for_lines].
  - reflexivity.
  - destruct (H l (or_introl eq_refl)) as [Hb|Hn].
    + rewrite Hb. cbn [negb]. apply IH. intros l' Hl'. apply H. now right.
    + rewrite Hn.
      destruct (negb _); apply IH; intros l' Hl'; apply H; now right.
Qed.

Lemma direct_summary_tried (line : string) (s : value) :
  direct_summary json_loads Opencode.parse_summary_from_raw line s ->
  Opencode.try_summary json_loads (VStr line) = Some s.
Proof.
  intros (data & raw' & _ & Hdata & Hvalid & Htruthy).
  unfold Opencode.try_summary. cbn [json_loads_value].
  rewrite Hdata. cbn [bind]. now rewrite Hvalid, Htruthy.
Qed.

(** C4. Tier 1 of Adapter C: when the whole blob decodes as one JSON value
    that the validator accepts, that summary is the result, whatever the
    lines of the text hold.  Tier 3: when neither the whole blob nor the
    block extracted from it yields a summary, the result is the summary of
    the first line whose decoded event the validator accepts; the lines
    before it are passed over on that test alone, with no look at their
    message text. *)
Theorem opencode_tier_precedence :
  (forall (output : string) (data raw' summary : value),
      json_loads (strip output) = Ok data ->
      Opencode.parse_summary_from_raw data = Ok (raw', summary) ->
      truthy summary = true ->
      Opencode.parse_opencode_output json_loads output = Ok summary)
  /\ (forall (output : string) (before after : list string) (line : string)
             (s : value),
        Opencode.try_summary json_loads (VStr (strip output)) = None ->
        (forall json_str,
            Opencode.extract_json_block (VStr output) = Ok json_str ->
            truthy json_str = true ->
            Opencode.try_summary json_loads json_str = None) ->
        split nl (strip output) = before ++ line :: after ->
        (forall l, In l before ->
                   truthy (VStr (strip l)) = false
                   \/ Opencode.try_summary json_loads (VStr l) = None) ->
        direct_summary json_loads Opencode.parse_summary_from_raw line s ->
        Opencode.parse_opencode_output json_loads output = Ok s).
Proof.
  split.
  - intros output data raw' summary Hdata Hvalid Htruthy.
    unfold Opencode.parse_opencode_output, Opencode.try_summary.
    cbn [json_loads_value]. rewrite Hdata. cbn [bind].
    now rewrite Hvalid, Htruthy.
  - intros output before after line s Htier1 Htier2 Hsplit Hbefore Hline.
    unfold Opencode.parse_opencode_output. rewrite Htier1.
    destruct (opencode_block_is_str output) as [r Hr]. rewrite Hr.
    cbn [bind].
    assert (Hno : (if truthy (VStr r)
                   then Opencode.try_summary json_loads (VStr r)
                   else None) = None).
    { destruct (truthy (VStr r)) eqn:E; auto. }
    rewrite Hno, Hsplit, (opencode_for_lines_skip before _ Hbefore).
    cbn [Opencode.for_lines].
    destruct Hline as (data & raw' & Hnb & Hrest).
    rewrite Hnb. cbn [negb].
    rewrite (direct_summary_tried line s); auto.
    exists data, raw'. auto.
Qed.

End AdapterC.

(** Tier 1: a blob that is one JSON object over four lines, one line of
    which is a summary object of its own with another status.  Tier 3:
    prose, then an event whose message text holds a summary, then two
    summary lines; the first of the two is the result. *)
Lemma opencode_tier_precedence_witness :
  Opencode.parse_opencode_output Json.loads
    (Json.unlines
       [Json.js "{'status':'whole','detail':";
        Json.js "{'status':'inner'}";
        Json.js "}"])
  = Ok (VDict [("status", VStr "whole");
               ("detail", VDict [("status", VStr "inner")]);
               ("task_id", VStr "")])
  /\ Opencode.parse_opencode_output Json.loads
       (Json.unlines
          [Json.js "working on it";
           Json.js "{'message':{'content':'{\'status\':\'wrapped\'}'}}";
           Json.js "{'status':'first'}";
           Json.js "{'status':'second'}"])
     = Ok (VDict [("status", VStr "first"); ("task_id", VStr "")]).
Proof.
  split.
  - apply (proj1 (opencode_tier_precedence Json.loads) _
             (VDict [("status", VStr "whole");
                     ("detail", VDict [("status", VStr "inner")])])
             (VDict [("status", VStr "whole");
                     ("detail", VDict [("status", VStr "inner")]);
                     ("task_id", VStr "")])).
    + vm_compute. reflexivity.
    + vm_compute. reflexivity.
    + reflexivity.
  - apply (proj2 (opencode_tier_precedence Json.loads) _
             [Json.js "working on it";
              Json.js "{'message':{'content':'{\'status\':\'wrapped\'}'}}"]
             [Json.js "{'status':'second'}"]
             (Json.js "{'status':'first'}")).
    + vm_compute. reflexivity.
    + intros json_str Hblock Htruthy.
      vm_compute in Hblock. injection Hblock as <-.
      vm_compute. reflexivity.
    + vm_compute. reflexivity.
    + intros l [<-|[<-|[]]]; right; vm_compute; reflexivity.
    + exists (VDict [("status", VStr "first")]),
             (VDict [("status", VStr "first"); ("task_id", VStr "")]).
      repeat split; vm_compute; reflexivity.
Defined.

(* ================================================================== *)
(** * The text scanner *)
(* ================================================================== *)

Lemma append_assoc_s (a b c : string) : ((a ++ b) ++ c = a ++ (b ++ c))%string.
Proof. induction a; simpl; congruence. Qed.

Lemma length_append_s (a b : string) :
  String.length (a ++ b) = (String.length a + String.length b)%nat.
Proof. induction a; simpl; congruence. Qed.

Lemma substring_skip (p s : string) (m : nat) :
  substring (String.length p) m (p ++ s) = substring 0 m s.
Proof. induction p; simpl; auto. Qed.

Lemma substring_take (o q : string) :
  substring 0 (String.length o) (o ++ q) = o.
Proof.
  induction o; simpl.
  - destruct q; reflexivity.
  - now rewrite IHo.
Qed.

Lemma slice_middle (p o q : string) :
  slice (p ++ o ++ q) (Z.of_nat (String.length p))
        (Z.of_nat (String.length p) + Z.of_nat (String.length o)) = o.
Proof.
  unfold slice.
  replace (Z.to_nat (Z.of_nat (String.length p) + Z.of_nat (String.length o)
                     - Z.of_nat (String.length p)))
    with (String.length o) by lia.
  rewrite Nat2Z.id, substring_skip. apply substring_take.
Qed.

Lemma slice_suffix (p r : string) :
  slice (p ++ r) (Z.of_nat (String.length p))
        (Z.of_nat (String.length (p ++ r))) = r.
Proof.
  rewrite length_append_s, Nat2Z.inj_add.
  rewrite <- (slice_middle p r EmptyString) at 3.
  f_equal. f_equal. induction r; simpl; congruence.
Qed.

Lemma lstrip_keeps_nonspace (p r : string) (c : ascii) :
  isspace c = false ->
  exists p', lstrip (p ++ String c r) = (p' ++ String c r)%string
             /\ (brace_free p = true -> brace_free p' = true).
Proof.
  intros Hc. induction p as [|a p IH]; simpl.
  - exists EmptyString. simpl. rewrite Hc. auto.
  - destruct (isspace a).
    + destruct IH as (p' & -> & Hp'). exists p'. split; auto.
      intros H. apply Hp'. rewrite !andb_true_iff in H. tauto.
    + exists (String a p). auto.
Qed.

Lemma rstrip_keeps_nonspace (a q : string) (c : ascii) :
  isspace c = false ->
  rstrip (a ++ String c q) = (a ++ String c (rstrip q))%string.
Proof.
  intros Hc. induction a as [|x a IH]; simpl.
  - destruct (rstrip q); [now rewrite Hc | reflexivity].
  - rewrite IH. destruct a; reflexivity.
Qed.

Lemma brace_free_rstrip (q : string) :
  brace_free q = true -> brace_free (rstrip q) = true.
Proof.
  induction q as [|c q IH]; simpl; auto.
  rewrite !andb_true_iff. intros [[H1 H2] H3].
  specialize (IH H3). destruct (rstrip q).
  - destruct (isspace c); simpl; auto. now rewrite H1, H2.
  - simpl in *. now rewrite H1, H2, IH.
Qed.

Lemma find_skips_brace_free (p r : string) (i : Z) :
  brace_free p = true ->
  find_from "{" (p ++ String "{" r) i = i + Z.of_nat (String.length p).
Proof.
  revert i. induction p as [|a p IH]; intros i;
    simpl String.length; simpl append; cbn [find_from brace_free].
  - intros _. simpl. lia.
  - rewrite !andb_true_iff, !negb_true_iff. intros [[H1 _] H3].
    rewrite H1, IH by auto. lia.
Qed.

Lemma rfind_brace_free (q : string) (i last : Z) :
  brace_free q = true -> rfind_from "}" q i last = last.
Proof.
  revert i last. induction q as [|a q IH]; intros i last;
    cbn [rfind_from brace_free]; auto.
  rewrite !andb_true_iff, !negb_true_iff. intros [[_ H2] H3].
  rewrite H2. now apply IH.
Qed.

Lemma rfind_last_brace (a q : string) (i last : Z) :
  brace_free q = true ->
  rfind_from "}" (a ++ String "}" q) i last = i + Z.of_nat (String.length a).
Proof.
  intros Hq. revert i last. induction a as [|x a IH]; intros i last;
    simpl String.length; simpl append; cbn [rfind_from].
  - simpl. rewrite rfind_brace_free by auto. lia.
  - rewrite IH. lia.
Qed.

Lemma brace_loop_nested (text : string) (start : Z) (body : string) :
  nested body ->
  forall (rest : string) (i n : Z),
    0 < n ->
    brace_loop text start (body ++ rest) i n
    = brace_loop text start rest (i + Z.of_nat (String.length body)) n.
Proof.
  induction 1 as [|c s Hc1 Hc2 _ IH|s t _ IHs _ IHt]; intros rest i n Hn.
  - simpl. f_equal. lia.
  - simpl append. simpl String.length. cbn [brace_loop].
    rewrite Hc1, Hc2, IH by auto. f_equal. lia.
  - simpl append. simpl String.length. cbn [brace_loop]. simpl.
    rewrite append_assoc_s. rewrite IHs by lia.
    simpl append. cbn [brace_loop]. simpl.
    replace (n + 1 - 1 =? 0) with false by (symmetry; apply Z.eqb_neq; lia).
    replace (n + 1 - 1) with n by lia.
    rewrite IHt by auto. f_equal.
    rewrite length_append_s. simpl String.length. lia.
Qed.

Lemma object_append (body q : string) :
  (object_of body ++ q)%string = String "{" (body ++ String "}" q).
Proof. unfold object_of. simpl. now rewrite append_assoc_s. Qed.

Lemma length_object (body : string) :
  String.length (object_of body) = S (S (String.length body)).
Proof. unfold object_of. simpl. rewrite length_append_s. simpl. lia. Qed.

(** The loop of the source computes [first_close]. *)
Lemma brace_loop_first_close (text : string) (start : Z) (rest : string) :
  forall i n,
    brace_loop text start rest i n
    = option_map (fun k => slice text start (i + Z.of_nat k))
        (first_close rest n).
Proof.
  induction rest as [|c rest IH]; intros i n; cbn [brace_loop first_close].
  - reflexivity.
  - destruct (c =? "{")%char eqn:Ho.
    + assert (Hc : (c =? "}")%char = false).
      { apply Ascii.eqb_eq in Ho. now subst c. }
      rewrite Hc, IH. cbn [andb].
      destruct (first_close rest (n + 1)); simpl; auto.
      do 2 f_equal. lia.
    + destruct (c =? "}")%char; cbn [andb].
      * destruct (n - 1 =? 0); [reflexivity|].
        rewrite IH. destruct (first_close rest (n - 1)); simpl; auto.
        do 2 f_equal. lia.
      * rewrite IH. destruct (first_close rest n); simpl; auto.
        do 2 f_equal. lia.
Qed.

Section Scanner.

Variables (p body q : string).
Hypothesis Hp : brace_free p = true.
Hypothesis Hq : brace_free q = true.
Hypothesis Hbody : nested body.

Let text : string := (p ++ object_of body ++ q)%string.

Lemma find_object : find "{" text = Z.of_nat (String.length p).
Proof.
  unfold text, find. rewrite object_append, find_skips_brace_free by auto. lia.
Qed.

Lemma rfind_object :
  rfind "}" text = Z.of_nat (String.length p) + Z.of_nat (String.length body) + 1.
Proof.
  unfold text, rfind. rewrite object_append.
  change (p ++ String "{" (body ++ String "}" q))%string
    with (p ++ (String "{" body) ++ String "}" q)%string.
  rewrite <- append_assoc_s, rfind_last_brace by auto.
  rewrite length_append_s. simpl String.length. lia.
Qed.

Lemma fence_span_object :
  fence_span (VStr text) = Ok (Some (VStr (object_of body))).
Proof.
  unfold fence_span. cbn [str_find str_rfind bind].
  rewrite find_object, rfind_object.
  replace (_ && _) with true
    by (symmetry; apply andb_true_iff; split;
        [apply Z.geb_le | apply Z.gtb_lt]; lia).
  cbn [getslice bind]. do 3 f_equal.
  replace (Z.of_nat (String.length p) + Z.of_nat (String.length body) + 1 + 1)
    with (Z.of_nat (String.length p) + Z.of_nat (String.length (object_of body)))
    by (rewrite length_object; lia).
  apply slice_middle.
Qed.

Lemma for_braces_object :
  for_braces (VStr text) (Z.of_nat (String.length p))
  = Ok (Some (VStr (object_of body))).
Proof.
  unfold for_braces. unfold text at 2 3. rewrite slice_suffix, object_append.
  cbn [brace_loop]. simpl.
  rewrite brace_loop_nested by (auto; lia).
  cbn [brace_loop]. simpl. do 3 f_equal.
  replace (Z.of_nat (String.length p) + 1 + Z.of_nat (String.length body) + 1)
    with (Z.of_nat (String.length p) + Z.of_nat (String.length (object_of body)))
    by (rewrite length_object; lia).
  apply slice_middle.
Qed.

End Scanner.

Lemma endswith_append (c x : ascii) (a q : string) :
  endswith c (a ++ String x q) = endswith c (String x q).
Proof.
  induction a as [|y a IH]; auto.
  simpl append. rewrite <- IH. destruct a; reflexivity.
Qed.

Lemma endswith_brace_free (q : string) :
  brace_free q = true -> endswith "}" q = false.
Proof.
  induction q as [|c q IH]; auto. cbn [brace_free].
  rewrite !andb_true_iff, !negb_true_iff. intros [[_ H2] H3].
  destruct q; [exact H2 | now apply IH].
Qed.

Lemma whole_text_is_object (p body q : string) :
  brace_free p = true -> brace_free q = true ->
  startswith "{" (p ++ object_of body ++ q) = true ->
  endswith "}" (p ++ object_of body ++ q) = true ->
  (p ++ object_of body ++ q)%string = object_of body.
Proof.
  intros Hp Hq Hs He.
  assert (p = EmptyString) as ->.
  { destruct p as [|a p]; auto. simpl in Hs, Hp.
    rewrite Hs in Hp. discriminate. }
  assert (q = EmptyString) as ->.
  { destruct q as [|x q]; auto.
    change (EmptyString ++ object_of body ++ String x q)%string
      with (object_of body ++ String x q)%string in He.
    rewrite endswith_append, endswith_brace_free in He by auto.
    discriminate. }
  simpl. unfold object_of. simpl. now rewrite append_assoc_s.
Qed.

Lemma strip_around_object (pre body post : string) :
  brace_free pre = true -> brace_free post = true ->
  exists p q,
    strip (pre ++ object_of body ++ post) = (p ++ object_of body ++ q)%string
    /\ brace_free p = true /\ brace_free q = true.
Proof.
  intros Hpre Hpost. unfold strip.
  rewrite object_append.
  destruct (lstrip_keeps_nonspace pre (body ++ String "}" post) "{" eq_refl)
    as (p & -> & Hp).
  exists p, (rstrip post).
  change (p ++ String "{" (body ++ String "}" post))%string
    with (p ++ (String "{" body) ++ String "}" post)%string.
  rewrite <- append_assoc_s, rstrip_keeps_nonspace by reflexivity.
  rewrite append_assoc_s, object_append.
  auto using brace_free_rstrip.
Qed.

(** X9. The scanner of codex_parser.py on a text that holds one object
    with matched braces and no other brace: it returns exactly the object,
    whatever prose or fence marks surround it. *)
Theorem codex_scanner_returns_the_object (pre body post : string) :
  brace_free pre = true -> brace_free post = true -> nested body ->
  Codex.extract_json_block (VStr (pre ++ object_of body ++ post))
  = Ok (VStr (object_of body)).
Proof.
  intros Hpre Hpost Hbody.
  destruct (strip_around_object pre body post Hpre Hpost)
    as (p & q & Hs & Hp & Hq).
  unfold Codex.extract_json_block. cbn [str_strip bind]. rewrite Hs.
  cbn [contains bind].
  destruct (str_contains "```json" _);
    [rewrite fence_span_object by auto; reflexivity|].
  cbn [bind].
  destruct (str_contains "```" _);
    [rewrite fence_span_object by auto; reflexivity|].
  cbn [bind str_startswith str_endswith and_then].
  destruct (startswith "{" _) eqn:Hsw; cbn [bind].
  - destruct (endswith "}" _) eqn:Hew.
    + now rewrite whole_text_is_object.
    + cbn [str_find bind]. rewrite find_object by auto.
      replace (_ >=? 0) with true by (symmetry; apply Z.geb_le; lia).
      now rewrite for_braces_object.
  - cbn [str_find bind]. rewrite find_object by auto.
    replace (_ >=? 0) with true by (symmetry; apply Z.geb_le; lia).
    now rewrite for_braces_object.
Qed.

(** X13. The scanner of claude_parser.py is that of codex_parser.py on a
    text that, once stripped, has no escaped newline and no escaped quote:
    the unescape step is the only difference between the two. *)
Lemma claude_scanner_without_escapes
    (json_loads : string -> res value) (text : string) :
  str_contains Claude.escaped_newline (strip text) = false ->
  str_contains Claude.escaped_quote (strip text) = false ->
  Claude.extract_json_block json_loads (VStr text)
  = Codex.extract_json_block (VStr text).
Proof.
  intros H1 H2. unfold Claude.extract_json_block, Codex.extract_json_block.
  cbn [str_strip bind or_else contains]. rewrite H1, H2. reflexivity.
Qed.

(** The brace-counting rule, which applies to a text with no fence that
    is not one object as a whole: the span from the first opening brace to
    where the depth first returns to zero, or None. *)
Lemma codex_scanner_fallback (text : string) :
  str_contains "```json" (strip text) = false ->
  str_contains "```" (strip text) = false ->
  startswith "{" (strip text) && endswith "}" (strip text) = false ->
  Codex.extract_json_block (VStr text)
  = Ok (let start := find "{" (strip text) in
        if start >=? 0 then
          match first_close (slice (strip text) start
                               (Z.of_nat (String.length (strip text)))) 0 with
          | Some k => VStr (slice (strip text) start (start + Z.of_nat k))
          | None => VNone
          end
        else VNone).
Proof.
  intros H1 H2 H3. unfold Codex.extract_json_block.
  cbn [str_strip bind contains]. rewrite H1. cbn [bind]. rewrite H2.
  cbn [bind str_startswith str_endswith and_then].
  replace (if startswith "{" (strip text)
           then Ok (endswith "}" (strip text)) else Ok false)
    with (Ok (A:=bool) false)
    by (destruct (startswith "{" (strip text)); simpl in H3; congruence).
  cbn [bind str_find]. cbv zeta.
  destruct (_ >=? 0); [|reflexivity].
  unfold for_braces. rewrite brace_loop_first_close.
  destruct (first_close _ 0); reflexivity.
Qed.

(** Fence tolerance: the object inside a fenced block. *)
Example codex_scanner_fenced_object :
  Codex.extract_json_block
    (VStr (Json.unlines
             ["```json"; Json.js "{'task_id':'t1','status':'ok'}"; "```"]))
  = Ok (VStr (Json.js "{'task_id':'t1','status':'ok'}")).
Proof.
  apply (codex_scanner_returns_the_object
           (String.append "```json" (String nl EmptyString))
           (Json.js "'task_id':'t1','status':'ok'")
           (String nl "```"));
    [reflexivity | reflexivity | repeat constructor].
Defined.

(* ================================================================== *)
(** * Exceptions that reach the caller *)
(* ================================================================== *)

(** C1. The claim is that no entry point lets an exception out.  Adapter C
    does not ([opencode_never_raises]); Adapters A and B do.  Their
    [try] blocks cover the calls of [json.loads], not the method calls
    that follow on what was decoded:

    - Adapter A, on the one line
      [{"type":"assistant_message","content":"{\"task_id\":\"t1\",\"status\":\"ok\"}"}]:
      the content is itself JSON, so the attempt to decode it succeeds and
      [content] becomes a dict; [extract_json_block] then calls [strip] on
      it, outside any [try], and AttributeError leaves
      [parse_claude_stream_json].
    - Adapter A, on the line [{"message":"hello"}]:
      [extract_text_from_message] calls [get] on the str "hello".
    - Adapter B, on the line [[]]: the validator returns None for the
      list, then [extract_text_from_message] calls [get] on it.
    - Adapter B, on the line [42]: the validator's [in] test raises
      TypeError. *)
Theorem adapters_let_exceptions_out :
  Claude.parse_claude_stream_json Json.loads
    (Json.js "{'type':'assistant_message','content':'{\'task_id\':\'t1\',\'status\':\'ok\'}'}")
  = Raise AttributeError
  /\ Claude.parse_claude_stream_json Json.loads
       (Json.js "{'message':'hello'}")
     = Raise AttributeError
  /\ Codex.parse_codex_ndjson Json.loads "[]" = Raise AttributeError
  /\ Codex.parse_codex_ndjson Json.loads "42" = Raise TypeError.
Proof. repeat split; vm_compute; reflexivity. Qed.

(** C5. The claim is that a text holding one well-formed object, with no
    brace in its string literals, yields exactly that object.  The scanner
    of codex_parser.py does on the text below; the one of
    claude_parser.py raises on it.  The text is the object
    [{"summary":"line one\nline two"}], whose string value has an escaped
    newline: the unescape step sees the backslash, decodes the whole text,
    gets a dict, and the next str method called on it raises
    AttributeError. *)
Theorem claude_scanner_raises_on_escaped_object :
  Claude.extract_json_block Json.loads
    (VStr (Json.js "{'summary':'line one\nline two'}"))
  = Raise AttributeError
  /\ Codex.extract_json_block
       (VStr (Json.js "{'summary':'line one\nline two'}"))
     = Ok (VStr (Json.js "{'summary':'line one\nline two'}")).
Proof. split; vm_compute; reflexivity. Qed.

(* ================================================================== *)
(** * More on the summary validators *)
(* ================================================================== *)

Lemma validated_accepted (d : dict) :
  snd (validated d) = VNone
  \/ (fst (validated d) = snd (validated d)
      /\ accepted_summary (snd (validated d))).
Proof.
  unfold validated.
  destruct (negb _) eqn:Hrec; [now left|]. cbv zeta.
  destruct (_ && _) eqn:Hall; [now left|]. right. split; auto.
  exists (normalized d). split; auto. split.
  - unfold normalized, lookup.
    destruct (dict_get "task_id" d) as [id|] eqn:Hid.
    + destruct id; cbn [is_none];
        try (rewrite Hid; eexists; split; [reflexivity|discriminate]).
      rewrite dict_get_set_same. eexists; split; [reflexivity|discriminate].
    + cbn [is_none]. rewrite dict_get_set_same.
      eexists; split; [reflexivity|discriminate].
  - simpl snd. rewrite !andb_false_iff, !negb_false_iff in Hall.
    unfold recognized.
    destruct Hall as [[[[H|H]|H]|H]|H]; eexists; (split; [|exact H]);
      simpl; auto 6.
Qed.

Lemma validator_rejects_non_dict (raw raw' ret : value) :
  is_dict raw = false ->
  Codex.parse_summary_from_raw raw = Ok (raw', ret) -> ret = VNone.
Proof.
  intros Hnd. unfold Codex.parse_summary_from_raw.
  destruct raw; try discriminate; cbn [contains bind];
    destruct (negb _); cbn [get bind]; congruence.
Qed.

Lemma validator_returns_accepted (raw raw' ret : value) :
  Codex.parse_summary_from_raw raw = Ok (raw', ret) ->
  ret = VNone \/ (raw' = ret /\ accepted_summary ret).
Proof.
  intros H. destruct (is_dict raw) eqn:Hd.
  - destruct raw; try discriminate.
    rewrite codex_validator_on_dict in H. injection H as H.
    destruct (validated_accepted d) as [Hn|[He Ha]]; rewrite H in *; auto.
  - left. eapply validator_rejects_non_dict; eauto.
Qed.

Lemma accepted_summary_revalidates (v : value) :
  accepted_summary v -> Codex.parse_summary_from_raw v = Ok (v, v).
Proof.
  intros (s & -> & (id & Hid & Hnn) & (k & Hk & Ht)).
  rewrite codex_validator_on_dict. f_equal. unfold validated.
  unfold dict_has at 1. rewrite Hid. cbn [orb negb]. cbv zeta.
  assert (Hn : normalized s = s).
  { unfold normalized, lookup. rewrite Hid. destruct id; auto. congruence. }
  rewrite Hn.
  assert (Hall : negb (truthy (lookup "task_id" s))
                 && negb (truthy (lookup "status" s))
                 && negb (truthy (lookup "summary" s))
                 && negb (truthy (lookup "files" s))
                 && negb (truthy (lookup "blockers" s)) = false).
  { simpl in Hk.
    repeat (destruct Hk as [<-|Hk];
            [rewrite Ht; cbn [negb andb];
             rewrite ?andb_false_r; reflexivity|]).
    contradiction. }
  now rewrite Hall.
Qed.

Lemma accepted_summary_truthy (v : value) :
  accepted_summary v -> truthy v = true.
Proof.
  intros (s & -> & (id & Hid & _) & _). destruct s; [discriminate|reflexivity].
Qed.

(** X1. Whatever the validator is given, object or not, what it returns
    is None or a summary: the very object it was given, as the call left
    it, with a task_id that is present and not None and with at least one
    of the five recognized fields testing true. *)
Theorem validator_result_is_summary (raw raw' ret : value) :
  Codex.parse_summary_from_raw raw = Ok (raw', ret) ->
  ret = VNone \/ (raw' = ret /\ accepted_summary ret).
Proof. exact (validator_returns_accepted raw raw' ret). Qed.

Lemma validator_result_is_summary_witness :
  VDict [("status", VStr "ok"); ("task_id", VStr "")] = VNone
  \/ (VDict [("status", VStr "ok"); ("task_id", VStr "")]
      = VDict [("status", VStr "ok"); ("task_id", VStr "")]
      /\ accepted_summary
           (VDict [("status", VStr "ok"); ("task_id", VStr "")])).
Proof.
  apply (validator_result_is_summary (VDict [("status", VStr "ok")])).
  reflexivity.
Defined.

(** X2. Validation is idempotent: a summary the validator returned is
    accepted again by it and comes back unchanged. *)
Theorem validator_idempotent (raw raw' ret : value) :
  Codex.parse_summary_from_raw raw = Ok (raw', ret) ->
  ret <> VNone ->
  Codex.parse_summary_from_raw ret = Ok (ret, ret).
Proof.
  intros H Hn. apply validator_returns_accepted in H.
  destruct H as [H|[_ H]]; [contradiction|].
  now apply accepted_summary_revalidates.
Qed.

Lemma validator_idempotent_witness :
  Codex.parse_summary_from_raw
    (VDict [("task_id", VStr ""); ("files", VList [VStr "a.py"])])
  = Ok (VDict [("task_id", VStr ""); ("files", VList [VStr "a.py"])],
        VDict [("task_id", VStr ""); ("files", VList [VStr "a.py"])]).
Proof.
  apply (validator_idempotent
           (VDict [("task_id", VNone); ("files", VList [VStr "a.py"])])
           (VDict [("task_id", VStr ""); ("files", VList [VStr "a.py"])])).
  - reflexivity.
  - discriminate.
Defined.

(** X3. The validator on a decoded value that is not an object.  A list
    is rejected when none of the five names is one of its elements, and a
    str when none is a substring of it; when one is, the call of [get]
    that follows raises AttributeError.  On None, a bool, an int or a
    float the first [in] test raises TypeError. *)
Theorem validator_on_non_objects :
  (forall l : list value,
      Codex.parse_summary_from_raw (VList l)
      = if existsb (fun k => existsb (fun x => eq_str x k) l) recognized
        then Raise AttributeError else Ok (VList l, VNone))
  /\ (forall s : string,
      Codex.parse_summary_from_raw (VStr s)
      = if existsb (fun k => str_contains k s) recognized
        then Raise AttributeError else Ok (VStr s, VNone))
  /\ Codex.parse_summary_from_raw VNone = Raise TypeError
  /\ (forall b, Codex.parse_summary_from_raw (VBool b) = Raise TypeError)
  /\ (forall z, Codex.parse_summary_from_raw (VInt z) = Raise TypeError)
  /\ (forall f, Codex.parse_summary_from_raw (VFloat f) = Raise TypeError).
Proof.
  split; [|split; [|repeat split]].
  - intros l. unfold Codex.parse_summary_from_raw, recognized.
    cbn [contains bind existsb]. rewrite orb_false_r, !orb_assoc.
    destruct (_ || _); reflexivity.
  - intros s. unfold Codex.parse_summary_from_raw, recognized.
    cbn [contains bind existsb]. rewrite orb_false_r, !orb_assoc.
    destruct (_ || _); reflexivity.
Qed.

(** X4. The validator normalizes before it tests for emptiness: a
    candidate it rejects as empty, having found one of the five keys in
    it, is left with its task_id set to the empty string where that was
    absent or null. *)
Theorem rejected_candidate_is_normalized (d : dict) (raw' : value) :
  (exists k, In k recognized /\ dict_has k d = true) ->
  Codex.parse_summary_from_raw (VDict d) = Ok (raw', VNone) ->
  raw' = VDict (normalized d).
Proof.
  intros (k & Hk & Hhas). rewrite codex_validator_on_dict.
  unfold validated.
  assert (Hrec : negb (dict_has "task_id" d || dict_has "status" d
                       || dict_has "summary" d || dict_has "files" d
                       || dict_has "blockers" d) = false).
  { apply negb_false_iff. simpl in Hk.
    repeat (destruct Hk as [<-|Hk];
            [rewrite Hhas, ?orb_true_r; reflexivity|]).
    contradiction. }
  rewrite Hrec. cbv zeta. destruct (_ && _); congruence.
Qed.

Lemma rejected_candidate_is_normalized_witness :
  VDict [("status", VStr ""); ("task_id", VStr "")]
  = VDict (normalized [("status", VStr "")]).
Proof.
  apply (rejected_candidate_is_normalized [("status", VStr "")]).
  - exists "status". split; [simpl; auto|reflexivity].
  - reflexivity.
Defined.

(* ================================================================== *)
(** * The content normalizer *)
(* ================================================================== *)

(** claude_parser.py and codex_parser.py carry the same normalizer. *)
Lemma claude_normalizer_is_codex (msg : value) :
  Claude.extract_text_from_message msg = Codex.extract_text_from_message msg.
Proof. reflexivity. Qed.

Lemma join_nl_strs (l : list string) :
  join_nl (map VStr l) = Ok (String.concat (String nl EmptyString) l).
Proof.
  induction l as [|s l IH]; [reflexivity|].
  destruct l as [|t l]; [reflexivity|].
  change (join_nl (map VStr (s :: t :: l)))
    with (r <- join_nl (map VStr (t :: l)) ;; Ok (s ++ String nl r)%string).
  rewrite IH. reflexivity.
Qed.

Lemma join_nl_unjoinable (l : list value) :
  existsb (fun v => negb (is_str v)) l = true ->
  join_nl l = Raise TypeError.
Proof.
  induction l as [|v l IH]; [discriminate|].
  cbn [existsb]. destruct v; cbn [is_str negb orb]; try reflexivity.
  intros H. destruct l as [|w l]; [discriminate|].
  change (join_nl (VStr s :: w :: l))
    with (r <- join_nl (w :: l) ;; Ok (s ++ String nl r)%string).
  now rewrite IH.
Qed.

Lemma content_parts_joinable (items : list value) :
  existsb unjoinable_part items = false ->
  content_parts items = map VStr (filter nonempty (map part_text items)).
Proof.
  induction items as [|item items IH]; [reflexivity|].
  cbn [existsb]. rewrite orb_false_iff. intros [Hi Hr].
  specialize (IH Hr). cbn [content_parts map filter].
  destruct item; cbn [is_str truthy andb part_text nonempty]; auto.
  - change (nonempty s) with (negb (s =? "")%string).
    destruct (negb _); cbn [map]; congruence.
  - unfold unjoinable_part in Hi.
    destruct (dict_get "text" d) as [t|]; [|exact IH].
    destruct t; cbn [is_str negb] in Hi;
      rewrite ?andb_true_r, ?andb_false_r in Hi;
      try (rewrite Hi; exact IH).
    cbn [truthy]. change (nonempty s) with (negb (s =? "")%string).
    destruct (negb (s =? "")%string); cbn [map]; congruence.
Qed.

Lemma content_parts_unjoinable (items : list value) :
  existsb unjoinable_part items = true ->
  existsb (fun v => negb (is_str v)) (content_parts items) = true.
Proof.
  induction items as [|item items IH]; [discriminate|].
  cbn [existsb content_parts]. intros H.
  destruct item; cbn [is_str truthy andb unjoinable_part orb] in *; auto.
  - destruct (negb (s =? "")%string); cbn [existsb is_str negb orb]; auto.
  - destruct (dict_get "text" d) as [t|]; auto.
    destruct (truthy t) eqn:Ht; cbn [andb] in H; auto.
    cbn [existsb]. destruct (negb (is_str t)); cbn [orb] in *; auto.
Qed.

(** X5. A list content is flattened in order: the non-empty str parts
    and the non-empty str text fields of the object parts, joined by
    newlines; parts of any other kind, and empty ones, are dropped.  One
    part breaks this: an object whose text field tests true without being
    a str makes the join raise TypeError. *)
Theorem list_content_is_joined (d : dict) (items : list value) :
  dict_has "message" d = false ->
  dict_get "content" d = Some (VList items) ->
  Codex.extract_text_from_message (VDict d)
  = if existsb unjoinable_part items then Raise TypeError
    else Ok (VStr (String.concat (String nl EmptyString)
                     (filter nonempty (map part_text items)))).
Proof.
  intros Hm Hc. unfold Codex.extract_text_from_message.
  cbn [contains bind]. rewrite Hm. cbn [get bind]. rewrite Hc.
  destruct (existsb unjoinable_part items) eqn:E.
  - rewrite join_nl_unjoinable; auto using content_parts_unjoinable.
  - rewrite content_parts_joinable, join_nl_strs by auto. reflexivity.
Qed.

Lemma list_content_is_joined_witness :
  Codex.extract_text_from_message
    (VDict [("content",
             VList [VStr "hello"; VDict [("text", VStr "world")];
                    VDict [("text", VStr "")]; VInt 42])])
  = Ok (VStr (String.append "hello" (String nl "world"))).
Proof.
  apply (list_content_is_joined
           [("content",
             VList [VStr "hello"; VDict [("text", VStr "world")];
                    VDict [("text", VStr "")]; VInt 42])]
           [VStr "hello"; VDict [("text", VStr "world")];
            VDict [("text", VStr "")]; VInt 42]);
    reflexivity.
Defined.

Lemma extract_text_on_dict (d : dict) :
  Codex.extract_text_from_message (VDict d)
  = match dict_get "message" d with
    | Some (VDict c) => content_text c
    | Some _ => Raise AttributeError
    | None => content_text d
    end.
Proof.
  unfold Codex.extract_text_from_message, content_text.
  cbn [contains bind]. unfold dict_has.
  destruct (dict_get "message" d) as [v|] eqn:Hm.
  - cbn [getitem bind]. rewrite Hm.
    destruct v; cbn [get bind]; try reflexivity.
    destruct (dict_get "content" d0) as [[]|]; cbn [contains bind];
      try reflexivity.
    unfold dict_has. destruct (dict_get "text" d1) eqn:Ht; cbn [getitem];
      rewrite ?Ht; reflexivity.
  - cbn [get bind].
    destruct (dict_get "content" d) as [[]|]; cbn [contains bind];
      try reflexivity.
    unfold dict_has. destruct (dict_get "text" d0) eqn:Ht; cbn [getitem];
      rewrite ?Ht; reflexivity.
Qed.

Lemma content_text_raises (c : dict) :
  (exists e, content_text c = Raise e)
  <-> exists items, dict_get "content" c = Some (VList items)
                    /\ existsb unjoinable_part items = true.
Proof.
  unfold content_text.
  destruct (dict_get "content" c) as [[| | | | |items|t]|];
    try (split; [intros [e He]; discriminate He
                |intros (items & Hc & _); discriminate Hc]).
  - split.
    + intros [e He]. exists items. split; auto.
      destruct (existsb unjoinable_part items) eqn:E; auto.
      rewrite content_parts_joinable, join_nl_strs in He by auto.
      discriminate.
    + intros (items' & [= <-] & Hb). exists TypeError.
      rewrite join_nl_unjoinable; auto using content_parts_unjoinable.
  - split; [|intros (items & Hc & _); discriminate Hc].
    intros [e He]. destruct (dict_get "text" t); discriminate.
Qed.

(** X6. An event with a message object is read through it: the text is
    that of the message, and a content field of the event itself is never
    looked at.  So in both files that have the normalizer. *)
Theorem nested_message_takes_precedence (d m : dict) :
  dict_get "message" d = Some (VDict m) ->
  dict_has "message" m = false ->
  Codex.extract_text_from_message (VDict d)
  = Codex.extract_text_from_message (VDict m)
  /\ Claude.extract_text_from_message (VDict d)
     = Claude.extract_text_from_message (VDict m).
Proof.
  intros Hd Hm.
  assert (H : Codex.extract_text_from_message (VDict d)
              = Codex.extract_text_from_message (VDict m)).
  { rewrite !extract_text_on_dict, Hd. unfold dict_has in Hm.
    destruct (dict_get "message" m); [discriminate|reflexivity]. }
  split; exact H.
Qed.

Lemma nested_message_takes_precedence_witness :
  Codex.extract_text_from_message
    (VDict [("content", VStr "outer");
            ("message", VDict [("content", VStr "inner")])])
  = Codex.extract_text_from_message (VDict [("content", VStr "inner")])
  /\ Claude.extract_text_from_message
       (VDict [("content", VStr "outer");
               ("message", VDict [("content", VStr "inner")])])
     = Claude.extract_text_from_message (VDict [("content", VStr "inner")]).
Proof.
  apply (nested_message_takes_precedence
           [("content", VStr "outer");
            ("message", VDict [("content", VStr "inner")])]
           [("content", VStr "inner")]);
    reflexivity.
Defined.

(** X7. On an event object the normalizer raises in exactly two cases:
    the event has a message field that is not an object (AttributeError
    from [get]), or the content it reads, from the message when there is
    one and from the event otherwise, is a list with an object part whose
    text tests true and is not a str (TypeError from [join]).  In every
    other case it returns. *)
Theorem normalizer_raises_exactly_on (d : dict) :
  (exists e, Codex.extract_text_from_message (VDict d) = Raise e)
  <->
  (exists v, dict_get "message" d = Some v /\ is_dict v = false)
  \/ (exists c items,
         (dict_get "message" d = Some (VDict c)
          \/ (dict_get "message" d = None /\ c = d))
         /\ dict_get "content" c = Some (VList items)
         /\ existsb unjoinable_part items = true).
Proof.
  rewrite extract_text_on_dict.
  destruct (dict_get "message" d) as [v|] eqn:Hm.
  - destruct (is_dict v) eqn:Hv.
    + destruct v; try discriminate. rewrite content_text_raises. split.
      * intros (items & Hc & Hb). right. exists d0, items. auto.
      * intros [(v & Hv' & Hd)|(c & items & [Hc|[Hc _]] & Hrest)].
        -- injection Hv' as <-. discriminate Hd.
        -- injection Hc as <-. eauto.
        -- discriminate Hc.
    + split.
      * intros _. left. eauto.
      * intros _. exists AttributeError. destruct v; try reflexivity.
        discriminate.
  - rewrite content_text_raises. split.
    + intros (items & Hc & Hb). right. exists d, items. auto.
    + intros [(v & Hv' & _)|(c & items & [Hc|[_ ->]] & Hrest)].
      * discriminate Hv'.
      * discriminate Hc.
      * eauto.
Qed.

(* ================================================================== *)
(** * More on the text scanner *)
(* ================================================================== *)

Lemma brace_free_lacks (s : string) :
  brace_free s = true -> lacks "{" s = true /\ lacks "}" s = true.
Proof.
  induction s as [|a s IH]; cbn [brace_free lacks]; auto.
  rewrite !andb_true_iff. intros [[H1 H2] H3].
  destruct (IH H3). auto.
Qed.

Lemma lacks_lstrip (c : ascii) (s : string) :
  lacks c s = true -> lacks c (lstrip s) = true.
Proof.
  induction s as [|a s IH]; cbn [lacks lstrip]; auto.
  rewrite andb_true_iff. intros [H1 H2].
  destruct (isspace a); auto. cbn [lacks]. now rewrite H1, H2.
Qed.

Lemma lacks_rstrip (c : ascii) (s : string) :
  lacks c s = true -> lacks c (rstrip s) = true.
Proof.
  induction s as [|a s IH]; cbn [lacks rstrip]; auto.
  rewrite andb_true_iff. intros [H1 H2]. specialize (IH H2).
  destruct (rstrip s).
  - destruct (isspace a); cbn [lacks]; auto. now rewrite H1.
  - cbn [lacks] in *. now rewrite H1, IH.
Qed.

Lemma lacks_strip (c : ascii) (s : string) :
  lacks c s = true -> lacks c (strip s) = true.
Proof. intros H. unfold strip. now apply lacks_rstrip, lacks_lstrip. Qed.

Lemma find_lacks (c : ascii) (s : string) (i : Z) :
  lacks c s = true -> find_from c s i = -1.
Proof.
  revert i. induction s as [|a s IH]; intros i; cbn [lacks find_from]; auto.
  rewrite andb_true_iff, negb_true_iff. intros [-> H]. now apply IH.
Qed.

Lemma find_skips (c : ascii) (p r : string) (i : Z) :
  lacks c p = true ->
  find_from c (p ++ String c r) i = i + Z.of_nat (String.length p).
Proof.
  revert i. induction p as [|a p IH]; intros i;
    simpl String.length; simpl append; cbn [find_from lacks].
  - intros _. rewrite Ascii.eqb_refl. lia.
  - rewrite andb_true_iff, negb_true_iff. intros [-> H].
    rewrite IH by auto. lia.
Qed.

Lemma find_decompose (c : ascii) (s : string) (i : Z) :
  0 <= i -> find_from c s i <> -1 ->
  exists p r, s = (p ++ String c r)%string /\ lacks c p = true
              /\ find_from c s i = i + Z.of_nat (String.length p).
Proof.
  revert i. induction s as [|a s IH]; intros i Hi; cbn [find_from].
  - congruence.
  - destruct (a =? c)%char eqn:E.
    + intros _. apply Ascii.eqb_eq in E. subst a.
      exists EmptyString, s. simpl. repeat split; auto. lia.
    + intros H. destruct (IH (i + 1)) as (p & r & -> & Hp & Hf); auto; [lia|].
      exists (String a p), r. cbn [lacks]. rewrite E, Hp, Hf.
      simpl String.length. repeat split; auto. lia.
Qed.

Lemma rfind_lacks (c : ascii) (q : string) (i last : Z) :
  lacks c q = true -> rfind_from c q i last = last.
Proof.
  revert i last. induction q as [|a q IH]; intros i last;
    cbn [rfind_from lacks]; auto.
  rewrite andb_true_iff, negb_true_iff. intros [-> H]. now apply IH.
Qed.

Lemma rfind_last (c : ascii) (a q : string) (i last : Z) :
  lacks c q = true ->
  rfind_from c (a ++ String c q) i last = i + Z.of_nat (String.length a).
Proof.
  intros Hq. revert i last. induction a as [|x a IH]; intros i last;
    simpl String.length; simpl append; cbn [rfind_from].
  - rewrite Ascii.eqb_refl, rfind_lacks by auto. lia.
  - rewrite IH. lia.
Qed.

Lemma rfind_decompose (c : ascii) (s : string) (i last : Z) :
  (lacks c s = true /\ rfind_from c s i last = last)
  \/ exists a q, s = (a ++ String c q)%string /\ lacks c q = true
                 /\ rfind_from c s i last = i + Z.of_nat (String.length a).
Proof.
  revert i last. induction s as [|x s IH]; intros i last; cbn [rfind_from lacks].
  - now left.
  - destruct (IH (i + 1) (if (x =? c)%char then i else last))
      as [[Hl Hr]|(a & q & -> & Hq & Hr)].
    + destruct (x =? c)%char eqn:E.
      * right. apply Ascii.eqb_eq in E. subst x.
        exists EmptyString, s. simpl. repeat split; auto. rewrite Hr. lia.
      * left. cbn [negb andb]. auto.
    + right. exists (String x a), q. simpl String.length.
      repeat split; auto. rewrite Hr. lia.
Qed.

(** Two ways to cut one text: the earlier cut is inside the first part of
    the later one. *)
Lemma append_cut (p a x y : string) (c : ascii) :
  (p ++ String c x = a ++ y)%string ->
  (String.length p < String.length a)%nat ->
  exists mid, a = (p ++ String c mid)%string /\ x = (mid ++ y)%string.
Proof.
  revert a. induction p as [|b p IH]; intros a H Hlen.
  - destruct a as [|b a]; [simpl in Hlen; lia|].
    simpl in H. injection H as -> ->. exists a. auto.
  - destruct a as [|b' a]; [simpl in Hlen; lia|].
    simpl in H. injection H as -> H.
    destruct (IH a H) as (mid & -> & ->); [simpl in Hlen; lia|].
    exists mid. auto.
Qed.

Lemma fence_span_first_to_last (p mid q : string) :
  lacks "{" p = true -> lacks "}" q = true ->
  fence_span (VStr (p ++ object_of mid ++ q))
  = Ok (Some (VStr (object_of mid))).
Proof.
  intros Hp Hq. unfold fence_span. cbn [str_find str_rfind bind].
  unfold find, rfind. rewrite object_append.
  rewrite find_skips by auto.
  change (p ++ String "{" (mid ++ String "}" q))%string
    with (p ++ (String "{" mid) ++ String "}" q)%string.
  rewrite <- append_assoc_s, rfind_last by auto.
  rewrite append_assoc_s, length_append_s. simpl String.length.
  replace (_ && _) with true
    by (symmetry; apply andb_true_iff; split;
        [apply Z.geb_le | apply Z.gtb_lt]; lia).
  cbn [getslice bind]. do 3 f_equal.
  change (p ++ String "{" mid ++ String "}" q)%string
    with (p ++ String "{" (mid ++ String "}" q))%string.
  rewrite <- object_append.
  replace (0 + Z.of_nat (String.length p + S (String.length mid)) + 1)
    with (Z.of_nat (String.length p)
          + Z.of_nat (String.length (object_of mid)))
    by (rewrite length_object; lia).
  replace (0 + Z.of_nat (String.length p)) with (Z.of_nat (String.length p))
    by lia.
  apply slice_middle.
Qed.

(** What [fence_span] yields on any str. *)
Lemma fence_span_shape (t : string) :
  fence_span (VStr t) = Ok None
  \/ exists p mid q,
       t = (p ++ object_of mid ++ q)%string
       /\ lacks "{" p = true /\ lacks "}" q = true
       /\ fence_span (VStr t) = Ok (Some (VStr (object_of mid))).
Proof.
  destruct (Z.eq_dec (find "{" t) (-1)) as [Hf|Hf].
  { left. unfold fence_span. cbn [str_find str_rfind bind]. now rewrite Hf. }
  destruct (find_decompose "{" t 0 (Z.le_refl 0) Hf) as (p & r & Ht & Hp & Hfind).
  destruct (rfind_decompose "}" t 0 (-1)) as [[_ Hr]|(a & q & Ht' & Hq & Hr)].
  { left. unfold fence_span. cbn [str_find str_rfind bind].
    unfold rfind. rewrite Hr.
    replace (-1 >? find "{" t) with false; [now rewrite andb_false_r|].
    symmetry. rewrite Z.gtb_ltb. apply Z.ltb_ge. unfold find. lia. }
  destruct (Z_lt_le_dec (find "{" t) (rfind "}" t)) as [Hlt|Hle].
  - right. unfold find, rfind in Hlt. rewrite Hfind, Hr in Hlt.
    rewrite Ht in Ht'.
    destruct (append_cut p a r (String "}" q) "{" Ht') as (mid & -> & ->);
      [lia|].
    exists p, mid, q. rewrite Ht, object_append.
    repeat split; auto.
    rewrite <- object_append. now apply fence_span_first_to_last.
  - left. unfold fence_span. cbn [str_find str_rfind bind].
    replace (rfind "}" t >? find "{" t) with false; [now rewrite andb_false_r|].
    symmetry. rewrite Z.gtb_ltb. apply Z.ltb_ge. lia.
Qed.

Lemma first_close_decompose (rest : string) (n : Z) (k : nat) :
  first_close rest n = Some k ->
  exists u v, rest = (u ++ String "}" v)%string /\ k = S (String.length u).
Proof.
  revert n k. induction rest as [|c rest IH]; intros n k; cbn [first_close].
  - discriminate.
  - destruct ((c =? "}")%char && _) eqn:E.
    + intros [= <-]. apply andb_true_iff in E. destruct E as [E _].
      apply Ascii.eqb_eq in E. subst c. exists EmptyString, rest. auto.
    + destruct (first_close rest _) as [k'|] eqn:Hk; [|discriminate].
      intros [= <-]. destruct (IH _ _ Hk) as (u & v & -> & ->).
      exists (String c u), v. auto.
Qed.

Lemma for_braces_shape (t : string) :
  find "{" t <> -1 ->
  for_braces (VStr t) (find "{" t) = Ok None
  \/ exists p mid q,
       t = (p ++ object_of mid ++ q)%string /\ lacks "{" p = true
       /\ for_braces (VStr t) (find "{" t) = Ok (Some (VStr (object_of mid))).
Proof.
  intros Hf.
  destruct (find_decompose "{" t 0 (Z.le_refl 0) Hf) as (p & r & Ht & Hp & Hfind).
  unfold find. rewrite Hfind. replace (0 + Z.of_nat (String.length p))
    with (Z.of_nat (String.length p)) by lia.
  clear Hf Hfind. subst t.
  unfold for_braces. rewrite brace_loop_first_close, slice_suffix.
  cbn [first_close]. rewrite Ascii.eqb_refl.
  change (("{" =? "}")%char) with false. cbn [andb].
  destruct (first_close r (0 + 1)) as [k|] eqn:Hk; [|now left].
  right. destruct (first_close_decompose _ _ _ Hk) as (u & v & -> & ->).
  exists p, u, v. rewrite <- object_append. repeat split; auto.
  cbn [option_map]. do 3 f_equal.
  replace (Z.of_nat (String.length p) + Z.of_nat (S (S (String.length u))))
    with (Z.of_nat (String.length p)
          + Z.of_nat (String.length (object_of u)))
    by (rewrite length_object; lia).
  apply slice_middle.
Qed.

Lemma endswith_decompose (c : ascii) (s : string) :
  endswith c s = true -> exists a, s = (a ++ String c EmptyString)%string.
Proof.
  induction s as [|x s IH]; [discriminate|].
  destruct s as [|y s].
  - cbn [endswith]. intros H. apply Ascii.eqb_eq in H. subst x.
    now exists EmptyString.
  - intros H. destruct (IH H) as [a ->]. now exists (String x a).
Qed.

Lemma whole_text_shape (t : string) :
  startswith "{" t = true -> endswith "}" t = true ->
  exists mid, t = object_of mid.
Proof.
  intros Hs He. destruct (endswith_decompose _ _ He) as [a ->].
  destruct a as [|x a]; [discriminate|].
  simpl in Hs. apply Ascii.eqb_eq in Hs. subst x. now exists a.
Qed.

Lemma prefix_append (a b s : string) :
  prefix (a ++ b) s = true -> prefix a s = true.
Proof.
  revert s. induction a as [|x a IH]; intros s; [now destruct s|].
  destruct s as [|y s]; [discriminate|]. simpl.
  destruct (ascii_dec x y); auto.
Qed.

Lemma str_contains_append (a b s : string) :
  str_contains (a ++ b) s = true -> str_contains a s = true.
Proof.
  induction s as [|y s IH]; cbn [str_contains];
    destruct (prefix (a ++ b) _) eqn:E;
    try (apply prefix_append in E; rewrite E; auto).
  - discriminate.
  - intros H. rewrite (IH H). now destruct (prefix a (String y s)).
Qed.

(** X8. Whatever text the scanner is given, it returns None or a piece of
    the stripped text that begins with an opening brace and ends with a
    closing one; it never raises on a str. *)
Theorem codex_scanner_result_shape (text : string) :
  Codex.extract_json_block (VStr text) = Ok VNone
  \/ exists p mid q,
       strip text = (p ++ object_of mid ++ q)%string
       /\ Codex.extract_json_block (VStr text) = Ok (VStr (object_of mid)).
Proof.
  unfold Codex.extract_json_block. cbn [str_strip bind contains].
  set (t := strip text).
  assert (Hrest :
    (whole <- and_then (str_startswith (VStr t) "{") (str_endswith (VStr t) "}") ;;
     if whole then Ok (VStr t)
     else start <- str_find (VStr t) "{" ;;
          found <- (if start >=? 0 then for_braces (VStr t) start else Ok None) ;;
          match found with Some r => Ok r | None => Ok VNone end) = Ok VNone
    \/ exists p mid q, t = (p ++ object_of mid ++ q)%string
       /\ (whole <- and_then (str_startswith (VStr t) "{") (str_endswith (VStr t) "}") ;;
           if whole then Ok (VStr t)
           else start <- str_find (VStr t) "{" ;;
                found <- (if start >=? 0 then for_braces (VStr t) start else Ok None) ;;
                match found with Some r => Ok r | None => Ok VNone end)
          = Ok (VStr (object_of mid))).
  { cbn [str_startswith str_endswith and_then bind str_find].
    destruct (startswith "{" t && endswith "}" t) eqn:Hw.
    - apply andb_true_iff in Hw. destruct Hw as [Hs He].
      rewrite Hs. cbn [bind]. rewrite He.
      destruct (whole_text_shape t Hs He) as [mid Hmid]. right.
      exists EmptyString, mid, EmptyString. rewrite Hmid at 1 2.
      split; [|reflexivity].
      simpl. unfold object_of. simpl. now rewrite append_assoc_s.
    - assert (Hno : (if startswith "{" t then Ok (endswith "}" t)
                     else Ok false) = Ok (A:=bool) false)
        by (destruct (startswith "{" t); simpl in Hw; congruence).
      rewrite Hno. cbn [bind].
      destruct (Z.eq_dec (find "{" t) (-1)) as [Hf|Hf].
      + left. now rewrite Hf.
      + replace (find "{" t >=? 0) with true.
        2:{ symmetry. apply Z.geb_le.
            destruct (find_decompose "{" t 0 (Z.le_refl 0) Hf)
              as (? & ? & _ & _ & Hx). unfold find. lia. }
        destruct (for_braces_shape t Hf) as [->|(p & mid & q & Ht & _ & ->)];
          cbn [bind]; auto.
        right. exists p, mid, q. auto. }
  destruct (str_contains "```json" t); cbn [bind].
  - destruct (fence_span_shape t) as [Hn|(p & mid & q & Ht & _ & _ & Hs)].
    + rewrite Hn. cbn [bind].
      destruct (str_contains "```" t); cbn [bind]; exact Hrest.
    + rewrite Hs. cbn [bind]. right. exists p, mid, q. auto.
  - destruct (str_contains "```" t); cbn [bind]; [|exact Hrest].
    destruct (fence_span_shape t) as [Hn|(p & mid & q & Ht & _ & _ & Hs)].
    + rewrite Hn. cbn [bind]. exact Hrest.
    + rewrite Hs. cbn [bind]. right. exists p, mid, q. auto.
Qed.

(** X10. With a fence mark anywhere in the stripped text the scanner takes
    the span from the first opening brace to the last closing brace,
    whatever lies between them, matched or not: two objects in the text
    come back as one span. *)
Theorem fenced_text_yields_first_to_last (text p mid q : string) :
  str_contains "```" (strip text) = true ->
  strip text = (p ++ object_of mid ++ q)%string ->
  lacks "{" p = true -> lacks "}" q = true ->
  Codex.extract_json_block (VStr text) = Ok (VStr (object_of mid)).
Proof.
  intros Hf Ht Hp Hq. unfold Codex.extract_json_block.
  cbn [str_strip bind contains]. rewrite Hf, Ht.
  rewrite (fence_span_first_to_last p mid q Hp Hq).
  destruct (str_contains "```json" _); reflexivity.
Qed.

Lemma fenced_text_yields_first_to_last_witness :
  Codex.extract_json_block
    (VStr (Json.unlines ["Result:"; "```"; "{a} and {b}"; "```"]))
  = Ok (VStr "{a} and {b}").
Proof.
  apply (fenced_text_yields_first_to_last _
           (Json.unlines ["Result:"; "```"; ""])
           "a} and {b"
           (String nl "```")); reflexivity.
Defined.

Lemma first_brace_scan (p body rest : string) (none : value) :
  lacks "{" p = true -> nested body ->
  (start <- str_find (VStr (p ++ object_of body ++ rest)) "{" ;;
   found <- (if start >=? 0
             then for_braces (VStr (p ++ object_of body ++ rest)) start
             else Ok None) ;;
   match found with
   | Some r => Ok r
   | None => Ok none
   end) = Ok (VStr (object_of body)).
Proof.
  intros Hp Hbody. cbn [str_find bind]. unfold find.
  rewrite object_append, find_skips by auto.
  replace (_ >=? 0) with true by (symmetry; apply Z.geb_le; lia).
  replace (0 + Z.of_nat (String.length p)) with (Z.of_nat (String.length p))
    by lia.
  unfold for_braces. rewrite slice_suffix. cbn [brace_loop]. simpl.
  rewrite brace_loop_nested by (auto; lia).
  cbn [brace_loop]. simpl. cbn [bind]. do 2 f_equal.
  rewrite <- object_append.
  replace (Z.of_nat (String.length p) + 1 + Z.of_nat (String.length body) + 1)
    with (Z.of_nat (String.length p)
          + Z.of_nat (String.length (object_of body)))
    by (rewrite length_object; lia).
  apply slice_middle.
Qed.

(** X11. Without a fence mark, a stripped text that does not both begin
    with an opening brace and end with a closing one yields the first
    object with matched braces, whatever follows it, further objects and
    stray braces included.  A text that does begin and end so is returned
    whole, also when it is more than that first object. *)
Theorem unfenced_text_yields_first_balanced (text p body rest : string) :
  str_contains "```" (strip text) = false ->
  strip text = (p ++ object_of body ++ rest)%string ->
  lacks "{" p = true -> nested body ->
  Codex.extract_json_block (VStr text)
  = Ok (VStr (if startswith "{" (strip text) && endswith "}" (strip text)
              then strip text else object_of body)).
Proof.
  intros Hf Ht Hp Hbody. unfold Codex.extract_json_block.
  cbn [str_strip bind contains].
  assert (Hj : str_contains "```json" (strip text) = false).
  { destruct (str_contains "```json" (strip text)) eqn:E; auto.
    apply (str_contains_append "```" "json") in E. congruence. }
  rewrite Hj, Hf. cbn [bind str_startswith str_endswith and_then].
  destruct (startswith "{" (strip text)) eqn:Hs; cbn [bind andb].
  - destruct (endswith "}" (strip text)) eqn:He; [reflexivity|].
    rewrite Ht. now apply first_brace_scan.
  - rewrite Ht. now apply first_brace_scan.
Qed.

Lemma unfenced_text_yields_first_balanced_witness :
  Codex.extract_json_block (VStr "see {a{b}} or {c}, then }{")
  = Ok (VStr "{a{b}}")
  /\ Codex.extract_json_block (VStr "{a} or {c}") = Ok (VStr "{a} or {c}").
Proof.
  split.
  - exact (unfenced_text_yields_first_balanced
             "see {a{b}} or {c}, then }{" "see " "a{b}" " or {c}, then }{"
             eq_refl eq_refl eq_refl
             (nested_char "a" "{b}" eq_refl eq_refl
                (nested_group "b" ""
                   (nested_char "b" "" eq_refl eq_refl nested_empty)
                   nested_empty))).
  - exact (unfenced_text_yields_first_balanced
             "{a} or {c}" "" "a" " or {c}"
             eq_refl eq_refl eq_refl ltac:(repeat constructor)).
Defined.

Lemma no_brace_no_block (text : string) :
  lacks "{" text = true ->
  Codex.extract_json_block (VStr text) = Ok VNone
  /\ Opencode.extract_json_block (VStr text) = Ok (VStr "").
Proof.
  intros H. apply (lacks_strip "{") in H.
  assert (Hfind : find "{" (strip text) = -1) by now apply find_lacks.
  assert (Hspan : fence_span (VStr (strip text)) = Ok None).
  { unfold fence_span. cbn [str_find str_rfind bind]. now rewrite Hfind. }
  assert (Hsw : startswith "{" (strip text) = false).
  { destruct (strip text) as [|a s]; auto. cbn [lacks] in H.
    apply andb_true_iff in H. destruct H as [H _].
    now apply negb_true_iff in H. }
  unfold Codex.extract_json_block, Opencode.extract_json_block.
  cbn [str_strip bind contains]. rewrite Hspan.
  cbn [str_startswith str_endswith and_then bind str_find].
  rewrite Hsw, Hfind. cbn [bind].
  split; destruct (str_contains "```json" _), (str_contains "```" _);
    reflexivity.
Qed.

(** X12. A text with no opening brace yields no block: None from the
    scanner of codex_parser.py, the empty str from the one of
    opencode_parser.py. *)
Theorem text_without_brace_yields_nothing (text : string) :
  lacks "{" text = true ->
  Codex.extract_json_block (VStr text) = Ok VNone
  /\ Opencode.extract_json_block (VStr text) = Ok (VStr "").
Proof. exact (no_brace_no_block text). Qed.

Lemma text_without_brace_yields_nothing_witness :
  Codex.extract_json_block (VStr "  no summary was produced  ") = Ok VNone
  /\ Opencode.extract_json_block (VStr "  no summary was produced  ")
     = Ok (VStr "").
Proof.
  apply (text_without_brace_yields_nothing "  no summary was produced  ").
  reflexivity.
Defined.

(** A text with no backslash at all: both scanners take the object out of
    the prose. *)
Lemma claude_scanner_without_escapes_witness :
  Claude.extract_json_block Json.loads
    (VStr (Json.js "Done: {'status':'ok'} as asked"))
  = Codex.extract_json_block
      (VStr (Json.js "Done: {'status':'ok'} as asked")).
Proof.
  apply (claude_scanner_without_escapes Json.loads); reflexivity.
Defined.

(* ================================================================== *)
(** * The adapters as a whole *)
(* ================================================================== *)

Section Inert.
Variable json_loads : string -> res value.

Lemma claude_dead_line (a : Claude.acc) (line : string) :
  live json_loads line = false ->
  Claude.loop_body json_loads a line = Ok (Claude.Next a).
Proof.
  unfold live, Claude.loop_body. intros H.
  destruct (truthy (VStr (strip line))); cbn [negb andb] in *; auto.
  destruct (json_loads line) as [data|e]; [discriminate|].
  destruct e; try discriminate H; reflexivity.
Qed.

Lemma codex_dead_line (last : value) (line : string) :
  live json_loads line = false ->
  Codex.loop_body json_loads last line = Ok last.
Proof.
  unfold live, Codex.loop_body. intros H.
  destruct (truthy (VStr (strip line))); cbn [negb andb] in *; auto.
  destruct (json_loads line) as [data|e]; [discriminate|].
  destruct e; try discriminate H; reflexivity.
Qed.

Lemma claude_walk_live (a : Claude.acc) (lines : list string) :
  Claude.for_lines json_loads a lines
  = Claude.for_lines json_loads a (filter (live json_loads) lines).
Proof.
  revert a. induction lines as [|line lines IH]; intros a; [reflexivity|].
  cbn [filter]. destruct (live json_loads line) eqn:E.
  - cbn [Claude.for_lines].
    destruct (Claude.loop_body json_loads a line) as [[|a']|]; cbn [bind]; auto.
  - cbn [Claude.for_lines]. rewrite claude_dead_line by auto. cbn [bind].
    apply IH.
Qed.

Lemma codex_walk_live (last : value) (lines : list string) :
  Codex.for_lines json_loads last lines
  = Codex.for_lines json_loads last (filter (live json_loads) lines).
Proof.
  revert last. induction lines as [|line lines IH]; intros last; [reflexivity|].
  cbn [filter]. destruct (live json_loads line) eqn:E.
  - cbn [Codex.for_lines].
    destruct (Codex.loop_body json_loads last line); cbn [bind]; auto.
  - cbn [Codex.for_lines]. rewrite codex_dead_line by auto. cbn [bind].
    apply IH.
Qed.

Lemma opencode_walk_live (lines : list string) :
  Opencode.for_lines json_loads lines
  = Opencode.for_lines json_loads (filter (live json_loads) lines).
Proof.
  induction lines as [|line lines IH]; [reflexivity|].
  cbn [filter]. unfold live at 1.
  cbn [Opencode.for_lines].
  destruct (truthy (VStr (strip line))) eqn:Hb; cbn [negb andb]; auto.
  destruct (json_loads line) as [data|e] eqn:Hd.
  - cbn [Opencode.for_lines]. rewrite Hb. cbn [negb].
    destruct (Opencode.try_summary json_loads (VStr line)); auto.
  - assert (Hn : Opencode.try_summary json_loads (VStr line) = None).
    { unfold Opencode.try_summary. cbn [json_loads_value]. rewrite Hd.
      reflexivity. }
    destruct e; cbn [Opencode.for_lines]; rewrite ?Hb; cbn [negb];
      rewrite Hn; exact IH.
Qed.

(** X14. Blank lines, and lines on which the decoder raises
    JSONDecodeError, have no effect on any adapter's walk over the lines:
    two outputs whose other lines agree, in order, give the same result
    in Adapters A and B and the same outcome of the third tier of
    Adapter C.  A line on which the decoder raises another exception is
    none of these: it counts among the other lines. *)
Theorem dead_lines_have_no_effect (output output' : string) :
  filter (live json_loads) (split nl (strip output))
  = filter (live json_loads) (split nl (strip output')) ->
  Claude.parse_claude_stream_json json_loads output
  = Claude.parse_claude_stream_json json_loads output'
  /\ Codex.parse_codex_ndjson json_loads output
     = Codex.parse_codex_ndjson json_loads output'
  /\ Opencode.for_lines json_loads (split nl (strip output))
     = Opencode.for_lines json_loads (split nl (strip output')).
Proof.
  intros H. unfold Claude.parse_claude_stream_json, Codex.parse_codex_ndjson.
  rewrite (claude_walk_live _ (split nl (strip output))),
          (claude_walk_live _ (split nl (strip output'))),
          (codex_walk_live _ (split nl (strip output))),
          (codex_walk_live _ (split nl (strip output'))),
          (opencode_walk_live (split nl (strip output))),
          (opencode_walk_live (split nl (strip output'))), H.
  auto.
Qed.

(** X25. An exception of the decoder other than JSONDecodeError gets out
    of Adapters A and B: when the walk reaches a line that is not blank
    and on which the decoder raises such an exception, RecursionError or
    ValueError say, [parse_claude_stream_json] and [parse_codex_ndjson]
    end with that exception, whatever a line before it recorded and
    whatever comes after.  The third tier of Adapter C, under its bare
    [except], goes on with the next line. *)
Theorem decoder_exceptions_get_out
    (output : string) (before later : list string) (line : string)
    (a : Claude.acc) (prev : value) (e : exn) :
  split nl (strip output) = before ++ line :: later ->
  Claude.for_lines json_loads (Claude.mk_acc (VStr "") (VStr "")) before
  = Ok (Claude.Next a) ->
  Codex.for_lines json_loads VNone before = Ok prev ->
  truthy (VStr (strip line)) = true ->
  json_loads line = Raise e ->
  e <> JSONDecodeError ->
  Claude.parse_claude_stream_json json_loads output = Raise e
  /\ Codex.parse_codex_ndjson json_loads output = Raise e
  /\ Opencode.for_lines json_loads (line :: later)
     = Opencode.for_lines json_loads later.
Proof.
  intros Hsplit Ha Hb Hline Hraise Hne. split; [|split].
  - unfold Claude.parse_claude_stream_json.
    rewrite Hsplit, claude_for_lines_app, Ha.
    cbn [bind Claude.for_lines]. unfold Claude.loop_body.
    rewrite Hline, Hraise. cbn [negb].
    destruct e; try reflexivity. now elim Hne.
  - unfold Codex.parse_codex_ndjson.
    rewrite Hsplit, codex_for_lines_app, Hb.
    cbn [bind Codex.for_lines]. unfold Codex.loop_body.
    rewrite Hline, Hraise. cbn [negb].
    destruct e; try reflexivity. now elim Hne.
  - cbn [Opencode.for_lines]. rewrite Hline. cbn [negb].
    unfold Opencode.try_summary. cbn [json_loads_value]. rewrite Hraise.
    reflexivity.
Qed.

End Inert.

(** A summary line, then an array opened 1500 times: the reference
    decoder gives up on the second line with RecursionError, and the run
    of Adapters A and B ends with it. *)
Lemma decoder_exceptions_get_out_witness :
  Claude.parse_claude_stream_json Json.loads
    (Json.unlines [Json.js "{'status':'ok'}"; opened_arrays 1500])
  = Raise RecursionError
  /\ Codex.parse_codex_ndjson Json.loads
       (Json.unlines [Json.js "{'status':'ok'}"; opened_arrays 1500])
     = Raise RecursionError
  /\ Opencode.for_lines Json.loads [opened_arrays 1500]
     = Opencode.for_lines Json.loads [].
Proof.
  apply (decoder_exceptions_get_out Json.loads _
           [Json.js "{'status':'ok'}"] []
           (opened_arrays 1500)
           (Claude.mk_acc (VStr "") (VStr ""))
           (VDict [("status", VStr "ok"); ("task_id", VStr "")])).
  - vm_compute. reflexivity.
  - vm_compute. reflexivity.
  - vm_compute. reflexivity.
  - vm_compute. reflexivity.
  - vm_compute. reflexivity.
  - discriminate.
Defined.

(** An int of 4301 digits: the reference decoder raises ValueError, which
    is no JSONDecodeError, and the run of Adapter B ends with it. *)
Lemma long_int_line_raises :
  Json.loads (digit_run 4301) = Raise ValueError
  /\ Codex.parse_codex_ndjson Json.loads (digit_run 4301) = Raise ValueError
  /\ Claude.parse_claude_stream_json Json.loads (digit_run 4301)
     = Raise ValueError.
Proof. split; [|split]; vm_compute; reflexivity. Qed.

(** Prose, a blank line and an unclosed brace around one summary line. *)
Lemma dead_lines_have_no_effect_witness :
  Claude.parse_claude_stream_json Json.loads
    (Json.unlines ["starting up"; ""; Json.js "{'status':'ok'}"; "bye {"])
  = Claude.parse_claude_stream_json Json.loads (Json.js "{'status':'ok'}")
  /\ Codex.parse_codex_ndjson Json.loads
       (Json.unlines ["starting up"; ""; Json.js "{'status':'ok'}"; "bye {"])
     = Codex.parse_codex_ndjson Json.loads (Json.js "{'status':'ok'}")
  /\ Opencode.for_lines Json.loads
       (split nl (strip (Json.unlines
          ["starting up"; ""; Json.js "{'status':'ok'}"; "bye {"])))
     = Opencode.for_lines Json.loads
         (split nl (strip (Json.js "{'status':'ok'}"))).
Proof.
  apply (dead_lines_have_no_effect Json.loads).
  vm_compute. reflexivity.
Defined.

Lemma immediate_object_truthy (v : value) :
  immediate_object v -> truthy v = true.
Proof.
  intros [H _]. destruct v; try discriminate; cbn [contains truthy] in *.
  - destruct s; [discriminate|reflexivity].
  - destruct l; [discriminate|reflexivity].
  - destruct d; [discriminate|reflexivity].
Qed.


(** Case analysis on the next test of a loop body: the innermost call or
    branch whose outcome is not yet known. *)
Ltac atomic t :=
  lazymatch t with
  | context [bind _ _] => fail
  | context [match _ with _ => _ end] => fail
  | _ => idtac
  end.

Ltac break_step :=
  repeat (cbn [bind];
          match goal with
          | |- context [bind ?c _] => atomic c; destruct c eqn:?
          | |- context [match ?x with _ => _ end] => atomic x; destruct x eqn:?
          end).

Section Results.

Variable json_loads : string -> res value.

Lemma codex_loop_body_keeps (last v : value) (line : string) :
  last = VNone \/ accepted_summary last ->
  Codex.loop_body json_loads last line = Ok v ->
  v = VNone \/ accepted_summary v.
Proof.
  intros Hlast. unfold Codex.loop_body.
  destruct (negb _); [intros [= <-]; auto|].
  destruct (json_loads line) as [data|e];
    [|destruct e; intros E; try discriminate E; injection E as <-; auto].
  destruct (Codex.parse_summary_from_raw data) as [[data' summary]|] eqn:Hv;
    cbn [bind]; [|discriminate].
  destruct (truthy summary) eqn:Ht.
  - intros [= <-]. apply validator_returns_accepted in Hv.
    destruct Hv as [->|[_ H]]; auto.
  - destruct (Codex.extract_text_from_message data') as [text|]; cbn [bind];
      [|discriminate].
    destruct (truthy text); [|intros [= <-]; auto].
    destruct (Codex.extract_json_block text) as [json_str|]; cbn [bind];
      [|discriminate].
    destruct (truthy json_str); [|intros [= <-]; auto].
    destruct (json_loads_value json_loads json_str) as [obj|]; cbn [bind];
      [|intros [= <-]; auto].
    destruct (Codex.parse_summary_from_raw obj) as [[obj' s]|] eqn:Hv';
      [|intros [= <-]; auto].
    destruct (truthy s) eqn:Hs; intros [= <-]; auto.
    apply validator_returns_accepted in Hv'.
    destruct Hv' as [->|[_ H]]; auto.
Qed.

Lemma codex_result_shape (output : string) (r : value) :
  Codex.parse_codex_ndjson json_loads output = Ok r ->
  r = VNone \/ accepted_summary r.
Proof.
  unfold Codex.parse_codex_ndjson.
  assert (H : forall lines last,
             last = VNone \/ accepted_summary last ->
             Codex.for_lines json_loads last lines = Ok r ->
             r = VNone \/ accepted_summary r).
  { induction lines as [|line lines IH]; intros last Hlast;
      cbn [Codex.for_lines].
    - intros [= <-]. exact Hlast.
    - destruct (Codex.loop_body json_loads last line) as [v|] eqn:Hb;
        cbn [bind]; [|discriminate].
      apply IH. eapply codex_loop_body_keeps; eauto. }
  apply H. now left.
Qed.

Lemma try_summary_accepted (text s : value) :
  Opencode.try_summary json_loads text = Some s -> accepted_summary s.
Proof.
  unfold Opencode.try_summary.
  destruct (json_loads_value json_loads text) as [data|]; cbn [bind];
    [|discriminate].
  destruct (Opencode.parse_summary_from_raw data) as [[data' summary]|] eqn:Hv;
    [|discriminate].
  destruct (truthy summary) eqn:Ht; [|discriminate]. intros [= <-].
  rewrite opencode_validator_is_codex in Hv.
  apply validator_returns_accepted in Hv.
  destruct Hv as [->|[_ H]]; [discriminate|auto].
Qed.

Lemma opencode_result_shape (output : string) :
  exists r, Opencode.parse_opencode_output json_loads output = Ok r
            /\ (r = VNone \/ accepted_summary r).
Proof.
  unfold Opencode.parse_opencode_output.
  destruct (Opencode.try_summary json_loads (VStr (strip output))) as [s|] eqn:H1.
  { exists s. eauto using try_summary_accepted. }
  destruct (opencode_block_is_str output) as [b ->]. cbn [bind].
  destruct (if truthy (VStr b) then _ else _) as [s|] eqn:H2.
  { exists s. split; auto. right.
    destruct (truthy (VStr b)); [|discriminate].
    eauto using try_summary_accepted. }
  eexists. split; [reflexivity|].
  induction (split nl (strip output)) as [|line lines IH];
    cbn [Opencode.for_lines]; auto.
  destruct (negb _); auto.
  destruct (Opencode.try_summary json_loads (VStr line)) eqn:H3; auto.
  eauto using try_summary_accepted.
Qed.

Lemma immediate_summary_object (content obj : value) :
  Claude.immediate_summary json_loads content = Ok (Some obj) ->
  immediate_object obj.
Proof.
  unfold Claude.immediate_summary.
  destruct (Claude.extract_json_block json_loads content) as [json_str|];
    cbn [bind]; [|discriminate].
  destruct (truthy json_str); [|discriminate].
  destruct (json_loads_value json_loads json_str) as [o|]; cbn [bind];
    [|discriminate].
  unfold and_then, immediate_object.
  destruct (contains "task_id" o) as [[]|] eqn:H1; cbn [bind]; try discriminate.
  destruct (contains "status" o) as [[]|] eqn:H2; cbn [bind]; try discriminate.
  intros [= <-]. auto.
Qed.

Lemma claude_return_is_object (a : Claude.acc) (line : string) (obj : value) :
  Claude.loop_body json_loads a line = Ok (Claude.Return obj) ->
  immediate_object obj.
Proof.
  unfold Claude.loop_body.
  destruct (negb _); [discriminate|].
  destruct (json_loads line) as [data|e];
    [|destruct e; intros E; discriminate E].
  destruct (get data "type" VNone) as [type|]; cbn [bind]; [|discriminate].
  destruct (eq_str type "assistant_message").
  - destruct (get data "content" (VStr "")) as [content|]; cbn [bind];
      [|discriminate].
    destruct (truthy content).
    + destruct (Claude.immediate_summary json_loads _) as [[o|]|] eqn:Hi;
        cbn [bind]; [| |discriminate].
      * intros [= <-]. eapply immediate_summary_object; eauto.
      * break_step; intros E; discriminate E.
    + break_step; intros E; discriminate E.
  - break_step; intros E; discriminate E.
Qed.

Lemma claude_walk_return (a : Claude.acc) (lines : list string) (obj : value) :
  Claude.for_lines json_loads a lines = Ok (Claude.Return obj) ->
  immediate_object obj.
Proof.
  revert a. induction lines as [|line lines IH]; intros a;
    cbn [Claude.for_lines]; [discriminate|].
  destruct (Claude.loop_body json_loads a line) as [[o|a']|] eqn:Hb;
    cbn [bind]; [| |discriminate].
  - intros [= <-]. eauto using claude_return_is_object.
  - apply IH.
Qed.

Lemma fallback_summary_accepted (content s : value) :
  Claude.fallback_summary json_loads content = Ok (Some s) ->
  accepted_summary s.
Proof.
  unfold Claude.fallback_summary.
  destruct (truthy content); [|discriminate].
  destruct (Claude.extract_json_block json_loads content) as [json_str|];
    cbn [bind]; [|discriminate].
  destruct (truthy json_str); [|discriminate].
  destruct (json_loads_value json_loads json_str) as [o|]; cbn [bind];
    [|discriminate].
  destruct (Claude.parse_summary_from_line o) as [[summary accepted]|] eqn:Hv;
    [|discriminate].
  destruct (truthy accepted) eqn:Ht; [|discriminate]. intros [= <-].
  rewrite claude_validator_is_codex in Hv.
  apply validator_returns_accepted in Hv.
  destruct Hv as [->|[-> H]]; [discriminate|auto].
Qed.

Lemma claude_result_shape (output : string) (r : value) :
  Claude.parse_claude_stream_json json_loads output = Ok r ->
  r = VNone \/ accepted_summary r \/ immediate_object r.
Proof.
  unfold Claude.parse_claude_stream_json.
  destruct (Claude.for_lines json_loads _ _) as [[obj|a]|] eqn:Hw;
    cbn [bind]; [| |discriminate].
  - intros [= <-]. eauto using claude_walk_return.
  - destruct (Claude.fallback_summary json_loads (Claude.last_assistant_content a))
      as [[s|]|] eqn:H1; cbn [bind]; [| |discriminate].
    + intros [= <-]. eauto using fallback_summary_accepted.
    + destruct (Claude.fallback_summary json_loads (Claude.last_message_content a))
        as [[s|]|] eqn:H2; cbn [bind]; [| |discriminate]; intros [= <-]; auto.
      eauto using fallback_summary_accepted.
Qed.

Lemma claude_step_keeps_first (a a' : Claude.acc) (line : string) :
  truthy (Claude.last_assistant_content a) = true ->
  Claude.loop_body json_loads a line = Ok (Claude.Next a') ->
  Claude.last_assistant_content a' = Claude.last_assistant_content a.
Proof.
  intros Hlac. unfold Claude.loop_body. rewrite Hlac. cbn [negb].
  break_step; intros [= <-]; try reflexivity;
    repeat match goal with
           | H : Ok _ = Ok _ |- _ => injection H as H; try subst
           | H : Ok _ = Raise _ |- _ => discriminate H
           end; try reflexivity; try discriminate.
Qed.

(** X18. The assistant-content fallback of Adapter A is the first one
    seen: once [last_assistant_content] holds a content that tests true,
    no later line changes it, whatever that line is, as long as the walk
    goes on. *)
Theorem first_assistant_content_is_kept
    (a a' : Claude.acc) (lines : list string) :
  truthy (Claude.last_assistant_content a) = true ->
  Claude.for_lines json_loads a lines = Ok (Claude.Next a') ->
  Claude.last_assistant_content a' = Claude.last_assistant_content a.
Proof.
  revert a. induction lines as [|line lines IH]; intros a Hlac;
    cbn [Claude.for_lines].
  - now intros [= <-].
  - destruct (Claude.loop_body json_loads a line) as [[o|a1]|] eqn:Hb;
      cbn [bind]; try discriminate.
    intros H. pose proof (claude_step_keeps_first _ _ _ Hlac Hb) as E.
    rewrite <- E. apply IH; auto. now rewrite E.
Qed.


(** X15. What [parse_codex_ndjson] returns is None or a summary as the
    validator accepts them: an object with a task_id that is not None and
    one of the five fields testing true.  Nothing unvalidated gets out. *)
Theorem codex_result_is_summary (output : string) (r : value) :
  Codex.parse_codex_ndjson json_loads output = Ok r ->
  r = VNone \/ accepted_summary r.
Proof. exact (codex_result_shape output r). Qed.

(** X16. [parse_opencode_output] raises on no input, and what it returns
    is None or a summary as the validator accepts them. *)
Theorem opencode_returns_summary_or_none (output : string) :
  exists r, Opencode.parse_opencode_output json_loads output = Ok r
            /\ (r = VNone \/ accepted_summary r).
Proof. exact (opencode_result_shape output). Qed.

(** X17. What [parse_claude_stream_json] returns is None, or a summary as
    the validator accepts them (from a fallback), or a value in which
    [in] finds both task_id and status (from the immediate return). *)
Theorem claude_result_is_summary (output : string) (r : value) :
  Claude.parse_claude_stream_json json_loads output = Ok r ->
  r = VNone \/ accepted_summary r \/ immediate_object r.
Proof. exact (claude_result_shape output r). Qed.

Lemma bare_delta_event_appends (lac : value) (m line piece : string) :
  bare_delta_event json_loads line piece ->
  Claude.loop_body json_loads (Claude.mk_acc lac (VStr m)) line
  = Ok (Claude.Next (Claude.mk_acc lac (VStr (m ++ piece)))).
Proof.
  intros (d & delta & Hline & Hdata & Htype & Hmsg & Hdelta & Htext).
  unfold Claude.loop_body. rewrite Hline, Hdata.
  cbn [negb get bind contains]. rewrite Htype, Hmsg, Hdelta.
  cbn [bind eq_str].
  change (("content_block_delta" =? "assistant_message")%string) with false.
  change (("content_block_delta" =? "content_block_delta")%string) with true.
  cbn [bind is_dict contains Claude.last_message_content
       Claude.last_assistant_content].
  unfold dict_has. rewrite Htext. cbn [getitem]. rewrite Htext.
  reflexivity.
Qed.

Lemma append_empty_r (s : string) : (s ++ EmptyString)%string = s.
Proof. induction s; simpl; congruence. Qed.

Lemma concat_pieces (m piece : string) (pieces : list string) :
  ((m ++ piece) ++ String.concat "" pieces)%string
  = (m ++ String.concat "" (piece :: pieces))%string.
Proof.
  destruct pieces as [|p pieces].
  - simpl. apply append_empty_r.
  - rewrite append_assoc_s. reflexivity.
Qed.

Lemma deltas_accumulate (lac : value) (lines pieces : list string) :
  Forall2 (bare_delta_event json_loads) lines pieces ->
  forall m,
    Claude.for_lines json_loads (Claude.mk_acc lac (VStr m)) lines
    = Ok (Claude.Next
            (Claude.mk_acc lac (VStr (m ++ String.concat "" pieces)))).
Proof.
  induction 1 as [|line piece lines pieces Hev _ IH]; intros m;
    cbn [Claude.for_lines].
  - simpl. now rewrite append_empty_r.
  - rewrite (bare_delta_event_appends lac m line piece Hev). cbn [bind].
    now rewrite IH, concat_pieces.
Qed.

(** X19. A summary streamed in pieces is put together again: when every
    line of the output is a content_block_delta event that carries a str
    text in its delta and has no message field, the result of Adapter A
    is what the message fallback makes of the texts concatenated in
    order.  (A delta event that also has a message field is not covered:
    the text of its message replaces what was accumulated.) *)
Theorem streamed_summary_is_reassembled
    (output : string) (pieces : list string) :
  Forall2 (bare_delta_event json_loads) (split nl (strip output)) pieces ->
  Claude.parse_claude_stream_json json_loads output
  = (found <- Claude.fallback_summary json_loads
                (VStr (String.concat "" pieces)) ;;
     match found with
     | Some summary => Ok summary
     | None => Ok VNone
     end).
Proof.
  intros H. unfold Claude.parse_claude_stream_json.
  rewrite (deltas_accumulate (VStr "") _ _ H). reflexivity.
Qed.

(** X20. [main] of each script reports a summary exactly when its parser
    returned one: for a result other than None it dumps that result to
    standard output with status 0, and for None it dumps the error object
    to standard error with status 1.  The test [if summary:] never takes
    a returned summary for an absent one, since none is empty. *)
Theorem exit_status_follows_result :
  (forall stdin r,
      Claude.parse_claude_stream_json json_loads stdin = Ok r ->
      Claude.main json_loads stdin = Ok (report r))
  /\ (forall stdin r,
      Codex.parse_codex_ndjson json_loads stdin = Ok r ->
      Codex.main json_loads stdin = Ok (report r))
  /\ (forall stdin r,
      Opencode.parse_opencode_output json_loads stdin = Ok r ->
      Opencode.main json_loads stdin = Ok (report r)).
Proof.
  repeat split; intros stdin r H.
  - unfold Claude.main. rewrite H. cbn [bind]. unfold report.
    destruct (claude_result_shape _ _ H) as [->|[Ha|Hi]];
      [reflexivity| |].
    + rewrite (accepted_summary_truthy _ Ha).
      destruct Ha as (s & -> & _). reflexivity.
    + rewrite (immediate_object_truthy _ Hi).
      destruct Hi as [Hi _]. destruct r; try discriminate; reflexivity.
  - unfold Codex.main. rewrite H. cbn [bind]. unfold report.
    destruct (codex_result_shape _ _ H) as [->|Ha];
      [reflexivity|].
    rewrite (accepted_summary_truthy _ Ha).
    destruct Ha as (s & -> & _). reflexivity.
  - unfold Opencode.main. rewrite H. cbn [bind]. unfold report.
    destruct (opencode_result_shape stdin)
      as (r' & Hr & Hd).
    rewrite H in Hr. injection Hr as <-.
    destruct Hd as [->|Ha]; [reflexivity|].
    rewrite (accepted_summary_truthy _ Ha).
    destruct Ha as (s & -> & _). reflexivity.
Qed.

End Results.

Lemma streamed_summary_is_reassembled_witness :
  Claude.parse_claude_stream_json Json.loads
    (Json.unlines
       [Json.js "{'type':'content_block_delta','delta':{'type':'text_delta','text':'{\'task_id\':\'t1\','}}";
        Json.js "{'type':'content_block_delta','delta':{'type':'text_delta','text':'\'status\':\'ok\'}'}}"])
  = Ok (VDict [("task_id", VStr "t1"); ("status", VStr "ok")]).
Proof.
  rewrite (streamed_summary_is_reassembled Json.loads _
             [Json.js "{'task_id':'t1',"; Json.js "'status':'ok'}"]).
  - vm_compute. reflexivity.
  - assert (E : split nl (strip (Json.unlines
       [Json.js "{'type':'content_block_delta','delta':{'type':'text_delta','text':'{\'task_id\':\'t1\','}}";
        Json.js "{'type':'content_block_delta','delta':{'type':'text_delta','text':'\'status\':\'ok\'}'}}"]))
       = [Json.js "{'type':'content_block_delta','delta':{'type':'text_delta','text':'{\'task_id\':\'t1\','}}";
          Json.js "{'type':'content_block_delta','delta':{'type':'text_delta','text':'\'status\':\'ok\'}'}}"])
      by (vm_compute; reflexivity).
    rewrite E. repeat constructor.
    + exists [("type", VStr "content_block_delta");
              ("delta", VDict [("type", VStr "text_delta");
                               ("text", VStr (Json.js "{'task_id':'t1',"))])],
             [("type", VStr "text_delta");
              ("text", VStr (Json.js "{'task_id':'t1',"))].
      repeat split; vm_compute; reflexivity.
    + exists [("type", VStr "content_block_delta");
              ("delta", VDict [("type", VStr "text_delta");
                               ("text", VStr (Json.js "'status':'ok'}"))])],
             [("type", VStr "text_delta");
              ("text", VStr (Json.js "'status':'ok'}"))].
      repeat split; vm_compute; reflexivity.
Defined.

Lemma codex_result_is_summary_witness :
  VDict [("status", VStr "b"); ("task_id", VStr "")] = VNone
  \/ accepted_summary (VDict [("status", VStr "b"); ("task_id", VStr "")]).
Proof.
  apply (codex_result_is_summary Json.loads
           (Json.unlines [Json.js "{'status':'a'}"; Json.js "{'status':'b'}"])).
  vm_compute. reflexivity.
Defined.

Lemma claude_result_is_summary_witness :
  VDict [("status", VStr "ok"); ("task_id", VStr "")] = VNone
  \/ accepted_summary (VDict [("status", VStr "ok"); ("task_id", VStr "")])
  \/ immediate_object (VDict [("status", VStr "ok"); ("task_id", VStr "")]).
Proof.
  apply (claude_result_is_summary Json.loads
           (Json.js "{'message':{'content':[{'type':'text','text':'Here: {\'status\':\'ok\'} bye'}]}}")).
  vm_compute. reflexivity.
Defined.

(** An assistant message seen after the first one leaves the fallback as
    it was. *)
Lemma first_assistant_content_is_kept_witness :
  Claude.last_assistant_content
    (Claude.mk_acc (VStr "first words") (VStr ""))
  = Claude.last_assistant_content
      (Claude.mk_acc (VStr "first words") (VStr "")).
Proof.
  apply (first_assistant_content_is_kept Json.loads
           (Claude.mk_acc (VStr "first words") (VStr ""))
           (Claude.mk_acc (VStr "first words") (VStr ""))
           [Json.js "{'type':'assistant_message','content':'later words'}"]).
  - reflexivity.
  - vm_compute. reflexivity.
Defined.

(** A run with a summary line and a run of prose, through each [main]. *)
Lemma exit_status_follows_result_witness :
  Claude.main Json.loads "nothing to report" = Ok no_summary_found
  /\ Codex.main Json.loads (Json.js "{'status':'ok'}")
     = Ok (mk_end (VDict [("status", VStr "ok"); ("task_id", VStr "")])
             Stdout 0)
  /\ Opencode.main Json.loads "nothing to report" = Ok no_summary_found.
Proof.
  split; [|split].
  - apply (proj1 (exit_status_follows_result Json.loads) _ VNone).
    vm_compute. reflexivity.
  - apply (proj1 (proj2 (exit_status_follows_result Json.loads)) _
             (VDict [("status", VStr "ok"); ("task_id", VStr "")])).
    vm_compute. reflexivity.
  - apply (proj2 (proj2 (exit_status_follows_result Json.loads)) _ VNone).
    vm_compute. reflexivity.
Defined.

(* ================================================================== *)
(** * Absence *)
(* ================================================================== *)

Lemma fence_span_str (t : string) :
  exists o, fence_span (VStr t) = Ok (option_map VStr o).
Proof.
  destruct (fence_span_shape t) as [H|(p & mid & q & _ & _ & _ & H)].
  - now exists None.
  - now exists (Some (object_of mid)).
Qed.

(** X21. The scanner of opencode_parser.py is that of codex_parser.py
    with one difference: where that one returns None, this one returns
    the empty str.  They agree on every other input, raising included. *)
Theorem opencode_scanner_is_codex_but_for_none (text : value) :
  Opencode.extract_json_block text
  = match Codex.extract_json_block text with
    | Ok VNone => Ok (VStr "")
    | r => r
    end.
Proof.
  destruct text; try reflexivity.
  unfold Codex.extract_json_block, Opencode.extract_json_block.
  cbn [str_strip bind contains]. set (t := strip s).
  destruct (fence_span_str t) as [o Ho]. rewrite Ho.
  cbn [str_startswith str_endswith and_then str_find bind].
  unfold for_braces.
  destruct (str_contains "```json" t), (str_contains "```" t), o;
    cbn [bind option_map]; try reflexivity;
    (destruct (startswith "{" t); cbn [bind];
     [destruct (endswith "}" t); [reflexivity|]|];
     (destruct (find "{" t >=? 0); cbn [bind]; [|reflexivity];
      destruct (brace_loop _ _ _ _ _); reflexivity)).
Qed.

Section Absence.
Variable json_loads : string -> res value.

(** X22. The absence path: when every line of the output is blank or
    makes the decoder raise JSONDecodeError (and no other exception), the
    decoder raises some exception on the stripped output as a whole, and
    the output has no opening brace, each script ends by dumping the
    error object to standard error with status 1.  A line on which the
    decoder raises another exception, RecursionError or ValueError say,
    is not covered: claude_parser.py and codex_parser.py let that one
    out. *)
Theorem prose_yields_absence (output : string) (e : exn) :
  (forall line, In line (split nl (strip output)) ->
                live json_loads line = false) ->
  json_loads (strip output) = Raise e ->
  lacks "{" output = true ->
  Claude.main json_loads output = Ok no_summary_found
  /\ Codex.main json_loads output = Ok no_summary_found
  /\ Opencode.main json_loads output = Ok no_summary_found.
Proof.
  intros Hdead Hwhole Hbrace.
  assert (Hnil : filter (live json_loads) (split nl (strip output)) = []).
  { induction (split nl (strip output)) as [|l ls IH]; [reflexivity|].
    cbn [filter]. rewrite (Hdead l (or_introl eq_refl)).
    apply IH. intros l' Hl'. apply Hdead. now right. }
  split; [|split].
  - unfold Claude.main, Claude.parse_claude_stream_json.
    rewrite claude_walk_live, Hnil. reflexivity.
  - unfold Codex.main, Codex.parse_codex_ndjson.
    rewrite codex_walk_live, Hnil. reflexivity.
  - unfold Opencode.main, Opencode.parse_opencode_output.
    unfold Opencode.try_summary at 1. cbn [json_loads_value].
    rewrite Hwhole. cbn [bind].
    rewrite (proj2 (no_brace_no_block output Hbrace)).
    cbn [bind truthy String.eqb negb].
    rewrite opencode_walk_live, Hnil. reflexivity.
Qed.

End Absence.

Lemma prose_yields_absence_witness :
  Claude.main Json.loads "The task could not be completed."
  = Ok no_summary_found
  /\ Codex.main Json.loads "The task could not be completed."
     = Ok no_summary_found
  /\ Opencode.main Json.loads "The task could not be completed."
     = Ok no_summary_found.
Proof.
  apply (prose_yields_absence Json.loads _ JSONDecodeError).
  - intros line [<-|[]]. vm_compute. reflexivity.
  - vm_compute. reflexivity.
  - reflexivity.
Defined.
